(** * Collaborative editor: operation log and operational transformation

    A shallow embedding of [src/api/collaborative_editor.py]: the
    [Operation] dataclass, [DocumentState] (apply and transform),
    [CollaborativeSession] and [CollaborationManager], followed by the
    properties of the operation log and of the transform rules.

    Conventions.
    - A Python [int] is a [Z]; a Python [str] is a [string], sliced with
      Python's rules for negative and out-of-range bounds.
    - [Optional[T]] is [option T]; truthiness tests ([if op.content],
      [if op.length], [x or default]) are written out.
    - A method that mutates [self] returns the new state next to its result.
      The locks only make each method atomic; the model is sequential.
    - [Operation] objects are compared by identity where the code returns
      them: [transform_operation] runs over a store of objects, so that
      [return op1] and [return Operation(...)] are told apart. *)

From Stdlib Require Import ZArith String Ascii DecimalString Lia.
From stdpp Require Import base option list gmap strings.

Local Open Scope Z_scope.

(** ** Python strings and slices *)

(** [len(s)] *)
Definition len (s : string) : Z := Z.of_nat (String.length s).

Fixpoint str_take (n : nat) (s : string) : string :=
  match n, s with
  | S n', String c s' => String c (str_take n' s')
  | _, _ => EmptyString
  end.

Fixpoint str_drop (n : nat) (s : string) : string :=
  match n, s with
  | S n', String _ s' => str_drop n' s'
  | _, _ => s
  end.

(** A slice bound as Python normalises it: a negative bound counts from the
    end, and the result is clamped to [0 .. len s] by [str_take]/[str_drop]. *)
Definition slice_index (s : string) (i : Z) : nat :=
  if i <? 0 then Z.to_nat (len s + i) else Z.to_nat i.

(** [s[:stop]] *)
Definition slice_to (s : string) (stop : Z) : string :=
  str_take (slice_index s stop) s.

(** [s[start:]] *)
Definition slice_from (s : string) (start : Z) : string :=
  str_drop (slice_index s start) s.

(** [l[start:]] on a list *)
Definition list_slice_from {A} (l : list A) (start : Z) : list A :=
  drop (if start <? 0 then Z.to_nat (Z.of_nat (length l) + start)
        else Z.to_nat start) l.

(** [str(n)] for an [int] *)
Definition str_of_int (n : Z) : string := NilZero.string_of_int (Z.to_int n).

(** Truthiness of an [Optional[str]]: [None] and the empty string are false. *)
Definition truthy_str (o : option string) : bool :=
  match o with
  | Some (String _ _) => true
  | _ => false
  end.

(** Truthiness of an [Optional[int]]: [None] and [0] are false. *)
Definition truthy_int (o : option Z) : bool :=
  match o with
  | Some n => negb (n =? 0)
  | None => false
  end.

(** [o or ""] and [o or 0] *)
Definition or_empty (o : option string) : string := default EmptyString o.
Definition or_zero (o : option Z) : Z := default 0 o.

(** ** Operation *)

Inductive OperationType := INSERT | DELETE | FORMAT | CURSOR.

#[global] Instance OperationType_eq_dec : EqDecision OperationType.
Proof. solve_decision. Defined.

Module OperationType_.
Definition value (t : OperationType) : string :=
  match t with
  | INSERT => "insert"
  | DELETE => "delete"
  | FORMAT => "format"
  | CURSOR => "cursor"
  end.
End OperationType_.

Module Operation.

Record t := mk {
  op_type : OperationType;
  position : Z;
  content : option string;
  length : option Z;
  attributes : option (gmap string string);
  agent_id : string;
  timestamp : string;
  op_id : string
}.

(** The dataclass's generated [__eq__] compares the fields. *)
#[global] Instance eq_dec : EqDecision t.
Proof. solve_decision. Defined.

Section PostInit.
(** What [__post_init__] reads from outside the object: the clock
    ([datetime.utcnow().isoformat()]) and [hashlib]'s MD5
    ([md5(data.encode()).hexdigest()]). *)
Variable utcnow_isoformat : string.
Variable md5_hexdigest : string -> string.

Definition post_init (self : t) : t :=
  let timestamp' :=
    match timestamp self with
    | EmptyString => utcnow_isoformat
    | ts => ts
    end in
  let op_id' :=
    match op_id self with
    | EmptyString =>
        let data := OperationType_.value (op_type self) +:+
                    str_of_int (position self) +:+
                    timestamp' +:+ agent_id self in
        str_take 8 (md5_hexdigest data)
    | id => id
    end in
  mk (op_type self) (position self) (content self) (length self)
     (attributes self) (agent_id self) timestamp' op_id'.

(** [Operation(op_type=..., position=..., content=..., length=...,
    agent_id=...)]: the other fields take their defaults. *)
Definition new (op_type : OperationType) (position : Z)
    (content : option string) (length : option Z) (agent_id : string) : t :=
  post_init (mk op_type position content length None agent_id "" "").
End PostInit.

End Operation.

(** ** The store of Operation objects *)

Abbreviation ref := nat.
Abbreviation store := (list Operation.t).

(** Computations over the store; [None] only for a dangling reference, which
    Python cannot produce. *)
Definition M (A : Type) : Type := store -> option (A * store).

#[global] Instance M_ret : MRet M := fun A a h => Some (a, h).

#[global] Instance M_bind : MBind M := fun A B k m h =>
  match m h with
  | Some (a, h') => k a h'
  | None => None
  end.

Definition deref (r : ref) : M Operation.t :=
  fun h => match h !! r with
           | Some o => Some (o, h)
           | None => None
           end.

(** A constructor call: the new object gets the next free reference. *)
Definition alloc (o : Operation.t) : M ref :=
  fun h => Some (List.length h, h ++ [o]).

(** ** DocumentState *)

Module DocumentState.

Record t := mk {
  document_id : string;
  content : string;
  version : Z;
  operations : list Operation.t;
  pending_operations : gmap string (list Operation.t)
}.

(** [__init__] *)
Definition init (document_id : string) : t :=
  mk document_id "" 0 [] ∅.

Definition set_content (self : t) (c : string) : t :=
  mk (document_id self) c (version self) (operations self)
     (pending_operations self).

(** The three assignments of a successful branch:
    [self.content = c; self.version += 1; self.operations.append(op)]. *)
Definition commit (self : t) (c : string) (op : Operation.t) : t :=
  mk (document_id self) c (version self + 1) (operations self ++ [op])
     (pending_operations self).

(** [apply_operation]: the new state and the returned boolean. No branch can
    raise on values of the declared types, so the [except] arm is dead. *)
Definition apply_operation (self : t) (op : Operation.t) : t * bool :=
  match Operation.op_type op with
  | INSERT =>
      if truthy_str (Operation.content op)
         && (0 <=? Operation.position op)
         && (Operation.position op <=? len (content self))
      then
        (commit self
           ((slice_to (content self) (Operation.position op) +:+
             or_empty (Operation.content op)) +:+
            slice_from (content self) (Operation.position op))
           op, true)
      else (self, false)
  | DELETE =>
      if truthy_int (Operation.length op)
         && (0 <=? Operation.position op)
         && (Operation.position op <? len (content self))
      then
        let end_pos :=
          Z.min (Operation.position op + or_zero (Operation.length op))
                (len (content self)) in
        (commit self
           (slice_to (content self) (Operation.position op) +:+
            slice_from (content self) end_pos)
           op, true)
      else (self, false)
  | FORMAT =>
      (* Format operations don't change content *)
      (commit self (content self) op, true)
  | CURSOR => (self, false)
  end.

Section Transform.
Variable utcnow_isoformat : string.
Variable md5_hexdigest : string -> string.

Let Operation_new := Operation.new utcnow_isoformat md5_hexdigest.

(** [transform_operation(op1, op2)]: transform [op1] against [op2]. The
    arguments and the result are references into the store. *)
Definition transform_operation (op1 op2 : ref) : M ref :=
  o1 ← deref op1;
  o2 ← deref op2;
  match Operation.op_type o1, Operation.op_type o2 with
  | INSERT, INSERT =>
      if Operation.position o1 <? Operation.position o2 then mret op1
      else if Operation.position o1 >? Operation.position o2 then
        alloc (Operation_new (Operation.op_type o1)
                 (Operation.position o1 + len (or_empty (Operation.content o2)))
                 (Operation.content o1) None (Operation.agent_id o1))
      else
        (* Same position - use agent_id for consistency *)
        if String.ltb (Operation.agent_id o1) (Operation.agent_id o2) then mret op1
        else
          alloc (Operation_new (Operation.op_type o1)
                   (Operation.position o1 + len (or_empty (Operation.content o2)))
                   (Operation.content o1) None (Operation.agent_id o1))
  | DELETE, INSERT =>
      if Operation.position o1 <? Operation.position o2 then mret op1
      else
        alloc (Operation_new (Operation.op_type o1)
                 (Operation.position o1 + len (or_empty (Operation.content o2)))
                 None (Operation.length o1) (Operation.agent_id o1))
  | INSERT, DELETE =>
      if Operation.position o1 <=? Operation.position o2 then mret op1
      else if Operation.position o1 >?
                Operation.position o2 + or_zero (Operation.length o2) then
        alloc (Operation_new (Operation.op_type o1)
                 (Operation.position o1 - or_zero (Operation.length o2))
                 (Operation.content o1) None (Operation.agent_id o1))
      else
        alloc (Operation_new (Operation.op_type o1)
                 (Operation.position o2)
                 (Operation.content o1) None (Operation.agent_id o1))
  | _, _ =>
      (* Default: return original *)
      mret op1
  end.
End Transform.

(** The dictionary [get_state] returns. [asdict] copies the fields of the
    last operation into a dictionary; the record of the fields stands for
    it. *)
Record snapshot := mk_snapshot {
  snapshot_document_id : string;
  snapshot_content : string;
  snapshot_version : Z;
  snapshot_length : Z;
  snapshot_last_operation : option Operation.t
}.

(** [get_state]: [self.operations[-1] if self.operations else None] is the
    last element of the log when there is one. *)
Definition get_state (self : t) : snapshot :=
  mk_snapshot (document_id self) (content self) (version self)
    (len (content self)) (last (operations self)).

End DocumentState.

(** ** CollaborativeSession *)

Module CollaborativeSession.

(** The agent maps are carried as [__init__] makes them; an agent's info is
    an untyped dictionary in the source and a map of strings here. No method
    that touches them is embedded: none of them reaches the document. *)
Record t := mk {
  document_id : string;
  document_state : DocumentState.t;
  connected_agents : gmap string (gmap string string);
  cursor_positions : gmap string Z;
  selection_ranges : gmap string (Z * Z)
}.

(** [__init__] *)
Definition init (document_id : string) : t :=
  mk document_id (DocumentState.init document_id) ∅ ∅ ∅.

Definition set_document_state (self : t) (ds : DocumentState.t) : t :=
  mk (document_id self) ds (connected_agents self) (cursor_positions self)
     (selection_ranges self).

(** [add_agent]: [{**agent_info, 'joined_at': now}] is [agent_info] with the
    key [joined_at] set (a key of that name in [agent_info] is overwritten);
    [utcnow_isoformat] is the clock's reading at the call. *)
Definition add_agent (utcnow_isoformat : string) (self : t)
    (agent_id : string) (agent_info : gmap string string) : t :=
  mk (document_id self) (document_state self)
     (<[agent_id := <["joined_at" := utcnow_isoformat]> agent_info]>
        (connected_agents self))
     (<[agent_id := 0]> (cursor_positions self))
     (selection_ranges self).

(** [remove_agent]: each [if agent_id in d: del d[agent_id]] is a delete
    that does nothing for a missing key. *)
Definition remove_agent (self : t) (agent_id : string) : t :=
  mk (document_id self) (document_state self)
     (delete agent_id (connected_agents self))
     (delete agent_id (cursor_positions self))
     (delete agent_id (selection_ranges self)).

(** [update_cursor] *)
Definition update_cursor (self : t) (agent_id : string) (position : Z) : t :=
  mk (document_id self) (document_state self) (connected_agents self)
     (<[agent_id := position]> (cursor_positions self))
     (selection_ranges self).

(** [update_selection] *)
Definition update_selection (self : t) (agent_id : string) (start end_ : Z) : t :=
  mk (document_id self) (document_state self) (connected_agents self)
     (cursor_positions self)
     (<[agent_id := (start, end_)]> (selection_ranges self)).

(** The dictionary [get_session_info] returns. The list of agent ids is
    given as the set of the keys: the order of the Python list (the order in
    which the agents joined) is not part of the model. *)
Record info := mk_info {
  info_document_id : string;
  info_connected_agents : gset string;
  info_agent_count : nat;
  info_document_version : Z;
  info_cursor_positions : gmap string Z;
  info_selection_ranges : gmap string (Z * Z)
}.

(** [get_session_info] *)
Definition get_session_info (self : t) : info :=
  mk_info (document_id self) (dom (connected_agents self))
    (size (connected_agents self))
    (DocumentState.version (document_state self))
    (cursor_positions self) (selection_ranges self).

End CollaborativeSession.

(** ** CollaborationManager *)

(** [list.index(x)]: the position of the first element equal to [x];
    [None] stands for the [ValueError] raised when there is none. *)
Fixpoint list_index `{EqDecision A} (l : list A) (x : A) : option nat :=
  match l with
  | [] => None
  | y :: l' => if decide (y = x) then Some 0%nat else S <$> list_index l' x
  end.

Module CollaborationManager.

Record t := mk {
  sessions : gmap string CollaborativeSession.t;
  operation_queue : list (string * Operation.t)
}.

(** [__init__] *)
Definition init : t := mk ∅ [].

(** [create_session]: the manager afterwards and the session returned. *)
Definition create_session (self : t) (document_id initial_content : string)
    : t * CollaborativeSession.t :=
  match sessions self !! document_id with
  | None =>
      let session := CollaborativeSession.init document_id in
      let session :=
        CollaborativeSession.set_document_state session
          (DocumentState.set_content
             (CollaborativeSession.document_state session) initial_content) in
      (mk (<[document_id := session]> (sessions self)) (operation_queue self),
       session)
  | Some session => (self, session)
  end.

(** [get_session] *)
Definition get_session (self : t) (document_id : string)
    : option CollaborativeSession.t :=
  sessions self !! document_id.

(** The dictionary [process_operation] returns. *)
Inductive result :=
  | Success (new_version : Z) (operation_id : string)
  | Failure (error : string).

(** [process_operation]: the manager afterwards and the result. The session
    object is changed in place by [apply_operation]; here the changed session
    is stored back under its key. *)
Definition process_operation (self : t) (document_id : string)
    (operation : Operation.t) : t * result :=
  match get_session self document_id with
  | None => (self, Failure "Session not found")
  | Some session =>
      let '(ds, success) :=
        DocumentState.apply_operation
          (CollaborativeSession.document_state session) operation in
      let session := CollaborativeSession.set_document_state session ds in
      let sessions' := <[document_id := session]> (sessions self) in
      if success then
        (mk sessions' (operation_queue self ++ [(document_id, operation)]),
         Success (DocumentState.version ds) (Operation.op_id operation))
      else
        (mk sessions' (operation_queue self),
         Failure "Failed to apply operation")
  end.

(** The comprehension of [get_pending_operations]:
    [[op for op in ops if all.index(op) >= since_version]]. *)
Fixpoint pending_from (all ops : list Operation.t) (since_version : Z)
    : option (list Operation.t) :=
  match ops with
  | [] => Some []
  | op :: ops' =>
      i ← list_index all op;
      rest ← pending_from all ops' since_version;
      Some (if since_version <=? Z.of_nat i then op :: rest else rest)
  end.

(** [get_pending_operations]; [None] stands for a [ValueError] out of
    [list.index]. *)
Definition get_pending_operations (self : t) (document_id : string)
    (since_version : Z) : option (list Operation.t) :=
  match get_session self document_id with
  | None => Some []
  | Some session =>
      let ops :=
        DocumentState.operations (CollaborativeSession.document_state session) in
      pending_from ops ops since_version
  end.

End CollaborationManager.

(** ** Sequences of calls on a manager *)

Inductive call :=
  | CreateSession (document_id initial_content : string)
  | ProcessOperation (document_id : string) (operation : Operation.t).

Definition step (m : CollaborationManager.t) (c : call) : CollaborationManager.t :=
  match c with
  | CreateSession d c0 => (CollaborationManager.create_session m d c0).1
  | ProcessOperation d op => (CollaborationManager.process_operation m d op).1
  end.

(** The manager after a sequence of calls on a new manager. *)
Definition run (cs : list call) : CollaborationManager.t :=
  foldl step CollaborationManager.init cs.

(** The [initial_content] a document's session was created with: that of the
    first [create_session] for the document (later ones return the session
    that exists). *)
Fixpoint seed_of (cs : list call) (d : string) : option string :=
  match cs with
  | [] => None
  | CreateSession d' c0 :: cs' =>
      if decide (d' = d) then Some c0 else seed_of cs' d
  | ProcessOperation _ _ :: cs' => seed_of cs' d
  end.

(** Replaying a log: every logged operation is applied in log order to a
    document that starts with content [initial]. *)
Definition replay_state (initial : string) (log : list Operation.t)
    : DocumentState.t :=
  foldl (fun s op => (DocumentState.apply_operation s op).1)
    (DocumentState.set_content (DocumentState.init "") initial) log.

Definition replay (initial : string) (log : list Operation.t) : string :=
  DocumentState.content (replay_state initial log).

(** ** Predicates of the properties *)

(** The two properties of a document's log, for a document that started with
    content [c0]. *)
Definition version_counts (s : DocumentState.t) : Prop :=
  DocumentState.version s = Z.of_nat (length (DocumentState.operations s)).

Definition log_faithful (c0 : string) (s : DocumentState.t) : Prop :=
  replay c0 (DocumentState.operations s) = DocumentState.content s.

(** When a call is accepted, in the terms of the source's guards. *)
Definition accepts (s : DocumentState.t) (op : Operation.t) : Prop :=
  match Operation.op_type op with
  | INSERT =>
      (exists text, Operation.content op = Some text /\ text <> "") /\
      0 <= Operation.position op <= len (DocumentState.content s)
  | DELETE =>
      (exists n, Operation.length op = Some n /\ n <> 0) /\
      0 <= Operation.position op < len (DocumentState.content s)
  | FORMAT => True
  | CURSOR => False
  end.

(** What holds of every session a manager has after the calls [cs]: the
    document was seeded by the first [create_session] for it, its version
    counts its log, and its log replays from the seed. *)
Definition sessions_ok (cs : list call) (m : CollaborationManager.t) : Prop :=
  forall d,
    match CollaborationManager.sessions m !! d with
    | Some ses =>
        exists c0,
          seed_of cs d = Some c0 /\
          version_counts (CollaborativeSession.document_state ses) /\
          log_faithful c0 (CollaborativeSession.document_state ses)
    | None => seed_of cs d = None
    end.

(** ** Sample values *)

Definition doc_hello : DocumentState.t :=
  DocumentState.set_content (DocumentState.init "doc1") "Hello".

Definition insert_at (p : Z) (text : string) (agent : string) : Operation.t :=
  Operation.mk INSERT p (Some text) None None agent "2024-01-01T00:00:00" "0a1b2c3d".

Definition delete_at (p n : Z) (agent : string) : Operation.t :=
  Operation.mk DELETE p None (Some n) None agent "2024-01-01T00:00:01" "4e5f6a7b".

(** Stand-ins for the clock and the digest in closed examples; no property
    below depends on what they return. *)
Definition sample_now : string := "2024-01-01T00:00:02".
Definition sample_md5 (data : string) : string :=
  "d41d8cd98f00b204e9800998ecf8427e".

Definition two_inserts : store :=
  [insert_at 5 "abc" "alice"; insert_at 5 "xy" "bob"].

Definition insert_and_delete : store :=
  [insert_at 9 "abc" "alice"; delete_at 4 3 "bob"].

Definition hello_calls : list call :=
  [CreateSession "doc1" "Hello World";
   ProcessOperation "doc1" (insert_at 5 " Beautiful" "agent1")].

Definition resubmitted_calls : list call :=
  [CreateSession "doc1" "Hello World";
   ProcessOperation "doc1" (insert_at 5 " Beautiful" "agent1");
   ProcessOperation "doc1" (insert_at 5 " Beautiful" "agent1")].

Definition inserts_apart : store :=
  [insert_at 7 "abc" "alice"; insert_at 2 "xy" "bob"].

Definition delete_and_insert : store :=
  [delete_at 10 3 "alice"; insert_at 5 "xy" "bob"].

Definition two_deletes : store :=
  [delete_at 4 3 "alice"; delete_at 1 2 "bob"].

Definition hello_manager : CollaborationManager.t :=
  run [CreateSession "doc1" "Hello World"].

Definition distinct_log : list Operation.t :=
  [insert_at 0 "Hello" "alice"; insert_at 5 " World" "bob"; delete_at 0 1 "alice"].

Definition doc_hello_world : DocumentState.t :=
  DocumentState.set_content (DocumentState.init "doc1") "Hello World".

(** ** Sequences of calls on a session *)

Inductive session_call :=
  | AddAgent (utcnow_isoformat agent_id : string) (agent_info : gmap string string)
  | RemoveAgent (agent_id : string)
  | UpdateCursor (agent_id : string) (position : Z)
  | UpdateSelection (agent_id : string) (start end_ : Z).

Definition session_step (ses : CollaborativeSession.t) (c : session_call)
    : CollaborativeSession.t :=
  match c with
  | AddAgent now a agent_info => CollaborativeSession.add_agent now ses a agent_info
  | RemoveAgent a => CollaborativeSession.remove_agent ses a
  | UpdateCursor a p => CollaborativeSession.update_cursor ses a p
  | UpdateSelection a st en => CollaborativeSession.update_selection ses a st en
  end.

(** The operations queued for a document, in queue order. *)
Definition queued_for (d : string) (queue : list (string * Operation.t))
    : list Operation.t :=
  (filter (fun x => x.1 = d) queue).*2.

(** The content after an Insert of [text] at [p] and, below, after a Delete
    of [n] characters at [p], as [apply_operation] computes them. *)
Definition spliced (c : string) (p : Z) (text : string) : string :=
  (slice_to c p +:+ text) +:+ slice_from c p.

Definition removed (c : string) (p n : Z) : string :=
  slice_to c p +:+ slice_from c (Z.min (p + n) (len c)).

Definition agent_calls : list session_call :=
  [AddAgent "2024-01-01T00:00:03" "agent1" {["name" := "Agent 1"]};
   UpdateCursor "agent1" 3;
   UpdateSelection "agent1" 3 5].

(** The branches of [transform_operation] that end in a constructor call,
    by their conditions in the source: an Insert against an Insert at a
    smaller position, or at the same position when [op1.agent_id <
    op2.agent_id] is false; a Delete against an Insert at the same or a
    smaller position; an Insert against a Delete at a smaller position.
    These are the branches that shift or clamp the position. *)
Definition rebuilds (o1 o2 : Operation.t) : Prop :=
  (Operation.op_type o1 = INSERT /\ Operation.op_type o2 = INSERT /\
   (Operation.position o2 < Operation.position o1 \/
    (Operation.position o1 = Operation.position o2 /\
     String.ltb (Operation.agent_id o1) (Operation.agent_id o2) = false))) \/
  (Operation.op_type o1 = DELETE /\ Operation.op_type o2 = INSERT /\
   Operation.position o2 <= Operation.position o1) \/
  (Operation.op_type o1 = INSERT /\ Operation.op_type o2 = DELETE /\
   Operation.position o2 < Operation.position o1).

(** Whether the first entry of [all] equal to [x] is at an index
    [>= since_version]: the test [all.index(x) >= since_version]. *)
Definition first_index_from (all : list Operation.t) (since_version : Z)
    (x : Operation.t) : bool :=
  match list_index all x with
  | Some i => since_version <=? Z.of_nat i
  | None => false
  end.

(** * Properties *)

Ltac run_transform Ha Hb :=
  unfold DocumentState.transform_operation, mbind, M_bind, deref;
  rewrite Ha, Hb.

(** ** Strings *)

Lemma str_app_cons c s1 s2 : String c s1 +:+ s2 = String c (s1 +:+ s2).
Proof. reflexivity. Qed.

Lemma length_str_app s1 s2 :
  String.length (s1 +:+ s2) = (String.length s1 + String.length s2)%nat.
Proof.
  induction s1 as [|c s1 IH]; [done|].
  rewrite str_app_cons. simpl. by rewrite IH.
Qed.

Lemma len_app s1 s2 : len (s1 +:+ s2) = len s1 + len s2.
Proof. unfold len. rewrite length_str_app. lia. Qed.

Lemma str_take_drop n s : str_take n s +:+ str_drop n s = s.
Proof.
  revert s. induction n as [|n IH]; intros [|c s]; simpl; try done.
  by rewrite str_app_cons, IH.
Qed.

Lemma length_str_take n s :
  String.length (str_take n s) = (n `min` String.length s)%nat.
Proof.
  revert s. induction n as [|n IH]; intros [|c s]; simpl; try done.
  by rewrite IH.
Qed.

Lemma length_str_drop n s :
  String.length (str_drop n s) = (String.length s - n)%nat.
Proof.
  revert s. induction n as [|n IH]; intros [|c s]; simpl; try done.
Qed.

Lemma len_str_take n s : len (str_take n s) = Z.min (Z.of_nat n) (len s).
Proof. unfold len. rewrite length_str_take. lia. Qed.

Lemma len_str_drop n s : len (str_drop n s) = Z.max 0 (len s - Z.of_nat n).
Proof. unfold len. rewrite length_str_drop. lia. Qed.

Lemma slice_index_nonneg s i : 0 <= i -> slice_index s i = Z.to_nat i.
Proof. intros Hi. unfold slice_index. by destruct (Z.ltb_spec i 0); [lia|]. Qed.

Lemma len_slice_to s i : 0 <= i <= len s -> len (slice_to s i) = i.
Proof.
  intros Hi. unfold slice_to. rewrite slice_index_nonneg, len_str_take by lia. lia.
Qed.

Lemma len_slice_from s i : 0 <= i <= len s -> len (slice_from s i) = len s - i.
Proof.
  intros Hi. unfold slice_from. rewrite slice_index_nonneg, len_str_drop by lia. lia.
Qed.

Lemma truthy_str_Some text : truthy_str (Some text) = true <-> text <> "".
Proof. destruct text; simpl; split; congruence. Qed.

Lemma truthy_int_Some n : truthy_int (Some n) = true <-> n <> 0.
Proof.
  simpl. destruct (Z.eqb_spec n 0); simpl; split; congruence.
Qed.

(** ** apply_operation *)

Section Apply.
Import DocumentState.

(** Either the call is refused and nothing changes, or the three assignments
    of a successful branch are made. *)
Lemma apply_operation_cases (s : t) (op : Operation.t) :
  apply_operation s op = (s, false) \/
  exists c, apply_operation s op = (commit s c op, true).
Proof.
  unfold apply_operation.
  destruct (Operation.op_type op); repeat case_match; eauto.
Qed.

Lemma apply_operation_insert (s : t) (op : Operation.t) (text : string) :
  Operation.op_type op = INSERT ->
  Operation.content op = Some text ->
  text <> "" ->
  0 <= Operation.position op <= len (content s) ->
  apply_operation s op =
    (commit s ((slice_to (content s) (Operation.position op) +:+ text) +:+
               slice_from (content s) (Operation.position op)) op, true).
Proof.
  intros Hk Hc Ht [Hlo Hhi]. unfold apply_operation. rewrite Hk, Hc.
  apply truthy_str_Some in Ht. rewrite Ht.
  destruct (Z.leb_spec 0 (Operation.position op)); [|lia].
  destruct (Z.leb_spec (Operation.position op) (len (content s))); [|lia].
  reflexivity.
Qed.

Lemma apply_operation_delete (s : t) (op : Operation.t) (n : Z) :
  Operation.op_type op = DELETE ->
  Operation.length op = Some n ->
  n <> 0 ->
  0 <= Operation.position op < len (content s) ->
  apply_operation s op =
    (commit s (slice_to (content s) (Operation.position op) +:+
               slice_from (content s)
                 (Z.min (Operation.position op + n) (len (content s)))) op,
     true).
Proof.
  intros Hk Hn Hnz [Hlo Hhi]. unfold apply_operation. rewrite Hk, Hn.
  apply truthy_int_Some in Hnz. rewrite Hnz.
  destruct (Z.leb_spec 0 (Operation.position op)); [|lia].
  destruct (Z.ltb_spec (Operation.position op) (len (content s))); [|lia].
  reflexivity.
Qed.

Lemma apply_operation_true_iff (s : t) (op : Operation.t) :
  (apply_operation s op).2 = true <-> accepts s op.
Proof.
  unfold accepts, apply_operation.
  destruct (Operation.op_type op); simpl; try (split; [done|intros []]); try done.
  - destruct (Operation.content op) as [[|c text]|]; simpl.
    + split; [done|]. intros [(text & [= <-] & Hne) _]. done.
    + destruct (Z.leb_spec 0 (Operation.position op));
        destruct (Z.leb_spec (Operation.position op) (len (content s)));
        simpl; split; try done; try (intros [_ ?]; lia).
      intros _. split; [eauto|lia].
    + split; [done|]. intros [(text & [=] & _) _].
  - destruct (Operation.length op) as [n|]; simpl.
    + destruct (Z.eqb_spec n 0) as [->|Hn]; simpl.
      { split; [done|]. intros [(n & [= <-] & Hne) _]. done. }
      destruct (Z.leb_spec 0 (Operation.position op));
        destruct (Z.ltb_spec (Operation.position op) (len (content s)));
        simpl; split; try done; try (intros [_ ?]; lia).
      intros _. split; [eauto|lia].
    + split; [done|]. intros [(n & [=] & _) _].
Qed.

End Apply.

Section ApplyClaims.
Import DocumentState.

(** C2, as stated, fails: an Insert whose content is provided as the empty
    string, at a position inside the document, is refused. *)
Lemma insert_empty_content_refused :
  Operation.op_type (insert_at 2 "" "a1") = INSERT /\
  Operation.content (insert_at 2 "" "a1") = Some "" /\
  0 <= Operation.position (insert_at 2 "" "a1") <= len (content doc_hello) /\
  apply_operation doc_hello (insert_at 2 "" "a1") = (doc_hello, false).
Proof. repeat split; done. Qed.

(** C2, amended: for every document state with content [c] and every Insert
    whose content is provided and non-empty and whose position [p] satisfies
    [0 <= p <= len c], apply returns true, the new content is
    [c[:p] + op.content + c[p:]] (so it is longer by [len op.content]), the
    version grows by exactly 1 and the operation is appended to the log. *)
Theorem apply_insert_splices (s : t) (op : Operation.t) (text : string) :
  Operation.op_type op = INSERT ->
  Operation.content op = Some text ->
  text <> "" ->
  0 <= Operation.position op <= len (content s) ->
  (apply_operation s op).2 = true /\
  content (apply_operation s op).1 =
    (slice_to (content s) (Operation.position op) +:+ text) +:+
    slice_from (content s) (Operation.position op) /\
  len (content (apply_operation s op).1) = len (content s) + len text /\
  version (apply_operation s op).1 = version s + 1 /\
  operations (apply_operation s op).1 = operations s ++ [op].
Proof.
  intros Hk Hc Ht Hp.
  rewrite (apply_operation_insert s op text) by done. simpl.
  repeat split.
  rewrite !len_app, len_slice_to, len_slice_from by done. lia.
Qed.

Lemma apply_insert_splices_witness :
  (apply_operation doc_hello (insert_at 5 " World" "a1")).2 = true /\
  content (apply_operation doc_hello (insert_at 5 " World" "a1")).1 =
    "Hello World" /\
  len (content (apply_operation doc_hello (insert_at 5 " World" "a1")).1) = 11 /\
  version (apply_operation doc_hello (insert_at 5 " World" "a1")).1 = 1 /\
  operations (apply_operation doc_hello (insert_at 5 " World" "a1")).1 =
    [insert_at 5 " World" "a1"].
Proof.
  apply (apply_insert_splices doc_hello (insert_at 5 " World" "a1") " World");
    [reflexivity | reflexivity | discriminate | vm_compute; split; discriminate].
Defined.

(** C3, as stated, fails: a Delete whose length is provided as 0, at a
    position inside the document, is refused. *)
Lemma delete_zero_length_refused :
  Operation.op_type (delete_at 1 0 "a1") = DELETE /\
  Operation.length (delete_at 1 0 "a1") = Some 0 /\
  0 <= Operation.position (delete_at 1 0 "a1") < len (content doc_hello) /\
  apply_operation doc_hello (delete_at 1 0 "a1") = (doc_hello, false).
Proof. repeat split; done. Qed.

(** C3, amended: for every document state with content [c] and every Delete
    whose length [n] is provided and positive and whose position [p]
    satisfies [0 <= p < len c], apply returns true and removes exactly
    [min n (len c - p)] characters starting at [p]: the new content is
    [c[:p] + c[p + min n (len c - p):]], shorter by that many characters
    (a delete that runs past the end is clamped); the version grows by
    exactly 1 and the operation is appended to the log. *)
Theorem apply_delete_removes (s : t) (op : Operation.t) (n : Z) :
  Operation.op_type op = DELETE ->
  Operation.length op = Some n ->
  0 < n ->
  0 <= Operation.position op < len (content s) ->
  (apply_operation s op).2 = true /\
  content (apply_operation s op).1 =
    slice_to (content s) (Operation.position op) +:+
    slice_from (content s)
      (Operation.position op + Z.min n (len (content s) - Operation.position op)) /\
  len (content (apply_operation s op).1) =
    len (content s) - Z.min n (len (content s) - Operation.position op) /\
  version (apply_operation s op).1 = version s + 1 /\
  operations (apply_operation s op).1 = operations s ++ [op].
Proof.
  intros Hk Hn Hpos Hp.
  rewrite (apply_operation_delete s op n) by (done || lia). simpl.
  replace (Z.min (Operation.position op + n) (len (content s)))
    with (Operation.position op +
          Z.min n (len (content s) - Operation.position op)) by lia.
  repeat split.
  rewrite len_app, len_slice_to, len_slice_from by lia. lia.
Qed.

Lemma apply_delete_removes_witness :
  (apply_operation doc_hello (delete_at 3 7 "a1")).2 = true /\
  content (apply_operation doc_hello (delete_at 3 7 "a1")).1 = "Hel" /\
  len (content (apply_operation doc_hello (delete_at 3 7 "a1")).1) = 5 - 2 /\
  version (apply_operation doc_hello (delete_at 3 7 "a1")).1 = 1 /\
  operations (apply_operation doc_hello (delete_at 3 7 "a1")).1 =
    [delete_at 3 7 "a1"].
Proof.
  apply (apply_delete_removes doc_hello (delete_at 3 7 "a1") 7);
    [reflexivity | reflexivity | reflexivity
    | vm_compute; split; [discriminate | reflexivity]].
Defined.

End ApplyClaims.

Section RefusedClaims.
Import DocumentState.

(** C4: applying a CursorMove, an Insert that fails its precondition (no
    content or empty content, or a position below 0 or above [len content])
    or a Delete that fails its precondition (no length or length 0, or a
    position outside [[0, len content)]) returns false and leaves content,
    version and log unchanged. *)
Theorem apply_refused_unchanged (s : t) (op : Operation.t) :
  Operation.op_type op = CURSOR \/
  (Operation.op_type op = INSERT /\
   (Operation.content op = None \/
    Operation.content op = Some "" \/
    Operation.position op < 0 \/
    len (content s) < Operation.position op)) \/
  (Operation.op_type op = DELETE /\
   (Operation.length op = None \/
    Operation.length op = Some 0 \/
    Operation.position op < 0 \/
    len (content s) <= Operation.position op)) ->
  (apply_operation s op).2 = false /\
  content (apply_operation s op).1 = content s /\
  version (apply_operation s op).1 = version s /\
  operations (apply_operation s op).1 = operations s.
Proof.
  intros H.
  assert (~ accepts s op) as Hrej.
  { unfold accepts.
    destruct H as [-> | [[-> Hi] | [-> Hd]]]; [tauto| |].
    - intros [(text & Ht & Hne) Hp].
      destruct Hi as [Hi | [Hi | Hi]]; [congruence | congruence | lia].
    - intros [(n & Hn & Hne) Hp].
      destruct Hd as [Hd | [Hd | Hd]]; [congruence | congruence | lia]. }
  destruct (apply_operation_cases s op) as [-> | [c Hc]]; [done|].
  exfalso. apply Hrej, apply_operation_true_iff. by rewrite Hc.
Qed.

Lemma apply_refused_unchanged_witness :
  (apply_operation doc_hello (insert_at 6 "!" "a1")).2 = false /\
  content (apply_operation doc_hello (insert_at 6 "!" "a1")).1 = "Hello" /\
  version (apply_operation doc_hello (insert_at 6 "!" "a1")).1 = 0 /\
  operations (apply_operation doc_hello (insert_at 6 "!" "a1")).1 = [].
Proof.
  apply (apply_refused_unchanged doc_hello (insert_at 6 "!" "a1")).
  right; left. split; [reflexivity|]. right; right; right. reflexivity.
Defined.

(** C10: an Insert whose content is the empty string and a Delete whose
    length is 0 are refused whatever their position: apply returns false and
    content, version and log are unchanged. *)
Theorem apply_empty_payload_refused (s : t) (op : Operation.t) :
  (Operation.op_type op = INSERT /\ Operation.content op = Some "") \/
  (Operation.op_type op = DELETE /\ Operation.length op = Some 0) ->
  (apply_operation s op).2 = false /\
  content (apply_operation s op).1 = content s /\
  version (apply_operation s op).1 = version s /\
  operations (apply_operation s op).1 = operations s.
Proof.
  intros [[Hk Hc] | [Hk Hn]]; unfold apply_operation; rewrite Hk.
  - rewrite Hc. done.
  - rewrite Hn. done.
Qed.

Lemma apply_empty_payload_refused_witness :
  (apply_operation doc_hello (delete_at 1 0 "a1")).2 = false /\
  content (apply_operation doc_hello (delete_at 1 0 "a1")).1 = "Hello" /\
  version (apply_operation doc_hello (delete_at 1 0 "a1")).1 = 0 /\
  operations (apply_operation doc_hello (delete_at 1 0 "a1")).1 = [].
Proof.
  apply (apply_empty_payload_refused doc_hello (delete_at 1 0 "a1")).
  right. split; reflexivity.
Defined.

End RefusedClaims.

(** ** The log: version counter and replay *)

Section Log.
Import DocumentState.

(** The outcome of [apply_operation] depends on the state through its
    content only. *)
Lemma apply_operation_content_only (s1 s2 : t) (op : Operation.t) :
  content s1 = content s2 ->
  (apply_operation s1 op).2 = (apply_operation s2 op).2 /\
  content (apply_operation s1 op).1 = content (apply_operation s2 op).1.
Proof.
  intros Hc. unfold apply_operation. rewrite Hc.
  destruct (Operation.op_type op); repeat case_match; simpl; auto.
Qed.

Lemma apply_operation_log (s : t) (op : Operation.t) :
  operations (apply_operation s op).1 =
    if (apply_operation s op).2 then operations s ++ [op] else operations s.
Proof.
  destruct (apply_operation_cases s op) as [-> | [c ->]]; done.
Qed.

Lemma apply_operation_version (s : t) (op : Operation.t) :
  version (apply_operation s op).1 =
    if (apply_operation s op).2 then version s + 1 else version s.
Proof.
  destruct (apply_operation_cases s op) as [-> | [c ->]]; done.
Qed.

Lemma version_counts_init d : version_counts (init d).
Proof. done. Qed.

Lemma version_counts_apply s op :
  version_counts s -> version_counts (apply_operation s op).1.
Proof.
  unfold version_counts. intros Hv.
  rewrite apply_operation_version, apply_operation_log.
  destruct (apply_operation s op).2; [|done].
  rewrite length_app. simpl. lia.
Qed.

Lemma replay_snoc c0 log op :
  replay c0 (log ++ [op]) =
    content (apply_operation (replay_state c0 log) op).1.
Proof. unfold replay, replay_state. by rewrite foldl_snoc. Qed.

Lemma log_faithful_apply c0 s op :
  log_faithful c0 s -> log_faithful c0 (apply_operation s op).1.
Proof.
  unfold log_faithful. intros Hs.
  destruct (apply_operation_content_only (replay_state c0 (operations s)) s op Hs)
    as [Hb Hc].
  rewrite apply_operation_log.
  destruct (apply_operation s op).2 eqn:Hok.
  - by rewrite replay_snoc.
  - destruct (apply_operation_cases s op) as [-> | [c Hcommit]]; [done|].
    by rewrite Hcommit in Hok.
Qed.

(** A document built directly and then changed by [apply_operation] only:
    its log replays from the content it started with. *)
Lemma log_faithful_applies d c0 (ops : list Operation.t) :
  log_faithful c0
    (foldl (fun s op => (apply_operation s op).1) (set_content (init d) c0) ops).
Proof.
  induction ops as [|op ops IH] using rev_ind; [done|].
  rewrite foldl_snoc. by apply log_faithful_apply.
Qed.

End Log.

(** ** Sessions of a manager *)

Lemma seed_of_app cs cs' d :
  seed_of (cs ++ cs') d =
    match seed_of cs d with
    | Some c0 => Some c0
    | None => seed_of cs' d
    end.
Proof.
  induction cs as [|[d' c0|d' op] cs IH]; simpl; [done| |done].
  by destruct (decide (d' = d)).
Qed.

Lemma run_snoc cs c : run (cs ++ [c]) = step (run cs) c.
Proof. unfold run. by rewrite foldl_snoc. Qed.

(** The sessions after each of the two calls. *)
Lemma create_session_sessions m d c0 :
  CollaborationManager.sessions (CollaborationManager.create_session m d c0).1 =
    match CollaborationManager.sessions m !! d with
    | Some _ => CollaborationManager.sessions m
    | None =>
        <[d := CollaborativeSession.set_document_state
                 (CollaborativeSession.init d)
                 (DocumentState.set_content (DocumentState.init d) c0)]>
          (CollaborationManager.sessions m)
    end.
Proof.
  unfold CollaborationManager.create_session.
  by destruct (CollaborationManager.sessions m !! d).
Qed.

Lemma process_operation_sessions m d op :
  CollaborationManager.sessions (CollaborationManager.process_operation m d op).1 =
    match CollaborationManager.sessions m !! d with
    | Some ses =>
        <[d := CollaborativeSession.set_document_state ses
                 (DocumentState.apply_operation
                    (CollaborativeSession.document_state ses) op).1]>
          (CollaborationManager.sessions m)
    | None => CollaborationManager.sessions m
    end.
Proof.
  unfold CollaborationManager.process_operation, CollaborationManager.get_session.
  destruct (CollaborationManager.sessions m !! d) as [ses|]; [|done].
  by destruct (DocumentState.apply_operation _ op) as [ds []].
Qed.

Lemma sessions_ok_step cs m c :
  sessions_ok cs m -> sessions_ok (cs ++ [c]) (step m c).
Proof.
  intros Hok d. rewrite seed_of_app.
  pose proof (Hok d) as Hd.
  destruct c as [d' c0 | d' op]; simpl.
  - rewrite create_session_sessions. pose proof (Hok d') as Hd'.
    destruct (CollaborationManager.sessions m !! d') as [ses'|] eqn:Hses'.
    + destruct (CollaborationManager.sessions m !! d) as [ses|] eqn:Hses.
      * destruct Hd as (c1 & -> & Hv & Hl). eauto.
      * rewrite Hd. destruct (decide (d' = d)) as [->|]; [congruence|done].
    + destruct (decide (d' = d)) as [->|Hne].
      * rewrite lookup_insert_eq, Hd'. exists c0. split_and!; done.
      * rewrite lookup_insert_ne by done.
        destruct (CollaborationManager.sessions m !! d) as [ses|].
        -- destruct Hd as (c1 & -> & Hv & Hl). eauto.
        -- by rewrite Hd.
  - rewrite process_operation_sessions.
    assert (match seed_of cs d with Some c1 => Some c1 | None => None end
            = seed_of cs d) as -> by (by destruct (seed_of cs d)).
    destruct (CollaborationManager.sessions m !! d') as [ses'|] eqn:Hses';
      [|done].
    destruct (decide (d' = d)) as [->|Hne].
    + rewrite lookup_insert_eq. rewrite Hses' in Hd.
      destruct Hd as (c1 & Hc1 & Hv & Hl). exists c1. simpl.
      split_and!; [done | by apply version_counts_apply
                  | by apply log_faithful_apply].
    + by rewrite lookup_insert_ne.
Qed.

Lemma sessions_ok_run cs : sessions_ok cs (run cs).
Proof.
  induction cs as [|c cs IH] using rev_ind.
  - intros d. unfold run. simpl. by rewrite lookup_empty.
  - rewrite run_snoc. by apply sessions_ok_step.
Qed.

(** C5: [version == len(operations)] holds of a new DocumentState and of the
    state [create_session] seeds with any initial content, is preserved by
    every [apply_operation], which adds one to the version exactly when it
    returns true and appends to the log exactly then, and so holds of every
    session of a manager after any sequence of calls. *)
Theorem version_equals_log_length :
  (forall d, version_counts (DocumentState.init d)) /\
  (forall m d c0,
     CollaborationManager.get_session m d = None ->
     version_counts
       (CollaborativeSession.document_state
          (CollaborationManager.create_session m d c0).2)) /\
  (forall s op,
     version_counts s -> version_counts (DocumentState.apply_operation s op).1) /\
  (forall s op,
     DocumentState.version (DocumentState.apply_operation s op).1 =
       (if (DocumentState.apply_operation s op).2
        then DocumentState.version s + 1 else DocumentState.version s) /\
     DocumentState.operations (DocumentState.apply_operation s op).1 =
       (if (DocumentState.apply_operation s op).2
        then DocumentState.operations s ++ [op] else DocumentState.operations s)) /\
  (forall cs d ses,
     CollaborationManager.get_session (run cs) d = Some ses ->
     version_counts (CollaborativeSession.document_state ses)).
Proof.
  split_and!.
  - apply version_counts_init.
  - intros m d c0 Hnew. unfold CollaborationManager.create_session.
    unfold CollaborationManager.get_session in Hnew. by rewrite Hnew.
  - apply version_counts_apply.
  - intros s op. split; [apply apply_operation_version | apply apply_operation_log].
  - intros cs d ses Hses. pose proof (sessions_ok_run cs d) as Hok.
    unfold CollaborationManager.get_session in Hses. rewrite Hses in Hok.
    by destruct Hok as (c0 & _ & Hv & _).
Qed.

(** C1, as stated, fails: a session created with initial content
    "Hello World" that has then accepted one Insert holds
    "Hello Beautiful World", while its log replayed from the empty string
    gives the empty string (the seed is not in the log, and the logged Insert
    at position 5 is refused on an empty document). *)
Lemma replay_from_empty_misses_seed :
  exists ses,
    CollaborationManager.get_session (run hello_calls) "doc1" = Some ses /\
    DocumentState.content (CollaborativeSession.document_state ses) =
      "Hello Beautiful World" /\
    DocumentState.operations (CollaborativeSession.document_state ses) =
      [insert_at 5 " Beautiful" "agent1"] /\
    replay "" (DocumentState.operations (CollaborativeSession.document_state ses)) = "".
Proof. eexists. split; [reflexivity|]. repeat split. Qed.

(** C1, amended: replaying a document's log from the content the
    document started with reproduces the live content exactly. For a
    DocumentState constructed directly and then changed by apply only, that
    is the replay from the empty string. For every session a manager holds
    after any sequence of [create_session] and [process_operation] calls, it
    is the replay from the initial content the session was created with, so
    the replay from the empty string when that was empty. *)
Theorem replay_from_seed_reproduces_content :
  (forall (d : string) (ops : list Operation.t),
     replay ""
       (DocumentState.operations
          (foldl (fun s op => (DocumentState.apply_operation s op).1)
             (DocumentState.init d) ops)) =
     DocumentState.content
       (foldl (fun s op => (DocumentState.apply_operation s op).1)
          (DocumentState.init d) ops)) /\
  (forall (cs : list call) (d : string) (ses : CollaborativeSession.t),
     CollaborationManager.get_session (run cs) d = Some ses ->
     exists c0,
       seed_of cs d = Some c0 /\
       replay c0
         (DocumentState.operations (CollaborativeSession.document_state ses)) =
       DocumentState.content (CollaborativeSession.document_state ses) /\
       (c0 = "" ->
        replay ""
          (DocumentState.operations (CollaborativeSession.document_state ses)) =
        DocumentState.content (CollaborativeSession.document_state ses))).
Proof.
  split.
  - intros d ops. apply (log_faithful_applies d "" ops).
  - intros cs d ses Hses. pose proof (sessions_ok_run cs d) as Hok.
    unfold CollaborationManager.get_session in Hses. rewrite Hses in Hok.
    destruct Hok as (c0 & Hseed & _ & Hl).
    exists c0. split_and!; [done | done | by intros ->].
Qed.

Lemma replay_from_seed_reproduces_content_witness :
  exists ses,
    CollaborationManager.get_session (run hello_calls) "doc1" = Some ses /\
    seed_of hello_calls "doc1" = Some "Hello World" /\
    replay "Hello World"
      (DocumentState.operations (CollaborativeSession.document_state ses)) =
    DocumentState.content (CollaborativeSession.document_state ses).
Proof.
  eexists. split; [reflexivity|].
  destruct (proj2 replay_from_seed_reproduces_content hello_calls "doc1" _ eq_refl)
    as (c0 & Hseed & Hreplay & _).
  split; [reflexivity|].
  injection Hseed as <-. exact Hreplay.
Defined.

(** ** transform_operation *)

(** Python's [<] on [str] is a strict total order. *)
Lemma str_ltb_trichotomy (s1 s2 : string) :
  s1 <> s2 ->
  (String.ltb s1 s2 = true /\ String.ltb s2 s1 = false) \/
  (String.ltb s2 s1 = true /\ String.ltb s1 s2 = false).
Proof.
  intros Hne. unfold String.ltb. rewrite (String.compare_antisym s2 s1).
  destruct (String.compare s1 s2) eqn:Hc; simpl; auto.
  by apply String.compare_eq_iff in Hc.
Qed.

Section TransformClaims.
Variable now : string.
Variable md5 : string -> string.

Local Abbreviation transform := (DocumentState.transform_operation now md5).

(** C6: two Inserts A and B at the same position from different agents.
    The agent ids are ordered one way or the other. If A's is the smaller,
    [transform(A, B)] returns A itself and [transform(B, A)] returns a new
    Insert with B's content and agent at B's position plus
    [len(A.content)]; if B's is the smaller, the same with A and B
    exchanged. So exactly one of the two is shifted, and which one does not
    depend on the order of the two calls: [h1] and [h2] are the stores the
    two calls run on, any in which [a] and [b] hold A and B. *)
Theorem transform_insert_tie_break
    (h1 h2 : store) (a b : ref) (A B : Operation.t) :
  h1 !! a = Some A -> h1 !! b = Some B ->
  h2 !! a = Some A -> h2 !! b = Some B ->
  Operation.op_type A = INSERT -> Operation.op_type B = INSERT ->
  Operation.position A = Operation.position B ->
  Operation.agent_id A <> Operation.agent_id B ->
  (String.ltb (Operation.agent_id A) (Operation.agent_id B) = true /\
   transform a b h1 = Some (a, h1) /\
   exists B',
     transform b a h2 = Some (length h2, h2 ++ [B']) /\
     Operation.op_type B' = INSERT /\
     Operation.position B' =
       Operation.position B + len (or_empty (Operation.content A)) /\
     Operation.content B' = Operation.content B /\
     Operation.agent_id B' = Operation.agent_id B) \/
  (String.ltb (Operation.agent_id B) (Operation.agent_id A) = true /\
   transform b a h2 = Some (b, h2) /\
   exists A',
     transform a b h1 = Some (length h1, h1 ++ [A']) /\
     Operation.op_type A' = INSERT /\
     Operation.position A' =
       Operation.position A + len (or_empty (Operation.content B)) /\
     Operation.content A' = Operation.content A /\
     Operation.agent_id A' = Operation.agent_id A).
Proof.
  intros Ha1 Hb1 Ha2 Hb2 HkA HkB Hpos Hne.
  assert ((Operation.position B >? Operation.position B) = false) as Hgt
    by (destruct (Z.gtb_spec (Operation.position B) (Operation.position B)); lia).
  destruct (str_ltb_trichotomy _ _ Hne) as [[Hlt Hge] | [Hlt Hge]];
    [left | right]; (split; [done|]); split.
  - run_transform Ha1 Hb1. by rewrite HkA, HkB, Hpos, Z.ltb_irrefl, Hgt, Hlt.
  - run_transform Hb2 Ha2. rewrite HkA, HkB, Hpos, Z.ltb_irrefl, Hgt, Hge.
    eexists. split; [reflexivity|done].
  - run_transform Hb2 Ha2. by rewrite HkA, HkB, Hpos, Z.ltb_irrefl, Hgt, Hlt.
  - run_transform Ha1 Hb1. rewrite HkA, HkB, Hpos, Z.ltb_irrefl, Hgt, Hge.
    eexists. split; [reflexivity|]. by rewrite <- Hpos.
Qed.

(** C7: an Insert A transformed against a Delete B of length [n >= 0].
    If [A.position <= B.position] the call returns A itself. If
    [A.position > B.position + n] it returns a new Insert at
    [A.position - n]. If A's position falls inside the deleted span it
    returns a new Insert at exactly [B.position]. The new Insert has A's
    kind and content (and agent). *)
Theorem transform_insert_against_delete
    (h : store) (a b : ref) (A B : Operation.t) (n : Z) :
  h !! a = Some A -> h !! b = Some B ->
  Operation.op_type A = INSERT -> Operation.op_type B = DELETE ->
  Operation.length B = Some n -> 0 <= n ->
  (Operation.position A <= Operation.position B ->
   transform a b h = Some (a, h)) /\
  (Operation.position A > Operation.position B + n ->
   exists A',
     transform a b h = Some (length h, h ++ [A']) /\
     Operation.position A' = Operation.position A - n /\
     Operation.op_type A' = INSERT /\
     Operation.content A' = Operation.content A /\
     Operation.agent_id A' = Operation.agent_id A) /\
  (Operation.position B < Operation.position A <= Operation.position B + n ->
   exists A',
     transform a b h = Some (length h, h ++ [A']) /\
     Operation.position A' = Operation.position B /\
     Operation.op_type A' = INSERT /\
     Operation.content A' = Operation.content A /\
     Operation.agent_id A' = Operation.agent_id A).
Proof.
  intros Ha Hb HkA HkB Hn Hnn.
  split_and!; intros Hp; run_transform Ha Hb; rewrite HkA, HkB, Hn; simpl.
  - by destruct (Z.leb_spec (Operation.position A) (Operation.position B)); [|lia].
  - destruct (Z.leb_spec (Operation.position A) (Operation.position B)); [lia|].
    destruct (Z.gtb_spec (Operation.position A) (Operation.position B + n)); [|lia].
    eexists. split; [reflexivity|done].
  - destruct (Z.leb_spec (Operation.position A) (Operation.position B)); [lia|].
    destruct (Z.gtb_spec (Operation.position A) (Operation.position B + n)); [lia|].
    eexists. split; [reflexivity|done].
Qed.

(** Which of the two a call does: in the branches that shift or clamp the
    position it constructs, in every other branch it returns [op1]. *)
Lemma transform_operation_branches (h : store) (a b : ref) (A B : Operation.t) :
  h !! a = Some A -> h !! b = Some B ->
  (~ rebuilds A B /\ transform a b h = Some (a, h)) \/
  (rebuilds A B /\
   exists o,
     transform a b h = Some (length h, h ++ [o]) /\
     Operation.op_type o = Operation.op_type A /\
     Operation.agent_id o = Operation.agent_id A /\
     (Operation.op_type B = INSERT ->
      Operation.position o =
        Operation.position A + len (or_empty (Operation.content B))) /\
     (Operation.op_type B = DELETE ->
      Operation.position A >
        Operation.position B + or_zero (Operation.length B) ->
      Operation.position o =
        Operation.position A - or_zero (Operation.length B)) /\
     (Operation.op_type B = DELETE ->
      Operation.position A <=
        Operation.position B + or_zero (Operation.length B) ->
      Operation.position o = Operation.position B)).
Proof.
  intros Ha Hb. run_transform Ha Hb. unfold rebuilds.
  destruct (Operation.op_type A) eqn:HkA, (Operation.op_type B) eqn:HkB;
    try (left; split; [intros [(? & ? & ?) | [(? & ? & ?) | (? & ? & ?)]]; congruence
                      | reflexivity]).
  - (* Insert against Insert *)
    destruct (Z.ltb_spec (Operation.position A) (Operation.position B)).
    { left. split; [|done].
      intros [(_ & _ & [? | [? _]]) | [(? & _) | (_ & ? & _)]];
        (lia || congruence). }
    destruct (Z.gtb_spec (Operation.position A) (Operation.position B)).
    { right. split; [left; split_and!; [done | done | left; lia]|].
      eexists. split; [reflexivity|]. split_and!; (done || congruence). }
    destruct (String.ltb (Operation.agent_id A) (Operation.agent_id B)) eqn:Hag.
    { left. split; [|done].
      intros [(_ & _ & [? | [_ ?]]) | [(? & _) | (_ & ? & _)]];
        (lia || congruence). }
    right. split; [left; split_and!; [done | done | right; split; [lia | done]]|].
    eexists. split; [reflexivity|]. split_and!; (done || congruence).
  - (* Insert against Delete *)
    destruct (Z.leb_spec (Operation.position A) (Operation.position B)).
    { left. split; [|done].
      intros [(_ & ? & _) | [(? & _) | (_ & _ & ?)]]; (lia || congruence). }
    right. split; [right; right; split_and!; [done | done | lia]|].
    destruct (Z.gtb_spec (Operation.position A)
                (Operation.position B + or_zero (Operation.length B))).
    + eexists. split; [reflexivity|].
      split_and!; try done; try congruence; try (intros _ ?; lia).
    + eexists. split; [reflexivity|].
      split_and!; try done; try congruence; try (intros _ ?; lia).
  - (* Delete against Insert *)
    destruct (Z.ltb_spec (Operation.position A) (Operation.position B)).
    { left. split; [|done].
      intros [(? & _) | [(_ & _ & ?) | (? & _)]]; (lia || congruence). }
    right. split; [right; left; split_and!; [done | done | lia]|].
    eexists. split; [reflexivity|]. split_and!; (done || congruence).
Qed.

(** C9, amended: [transform(A, B)] modifies no existing Operation, so A and
    B keep every field. It returns A itself, the same object with nothing
    constructed, in every branch where A is unaffected and for every pairing
    without a rule; it returns a newly constructed Operation, at a reference
    that held no object before and differs from both inputs, exactly in the
    branches that shift or clamp the position ([rebuilds]), and that
    Operation has A's kind and agent and the shifted or clamped position. *)
Theorem transform_returns_op1_or_new
    (h : store) (a b : ref) (A B : Operation.t) :
  h !! a = Some A -> h !! b = Some B ->
  exists r h',
    transform a b h = Some (r, h') /\
    (forall i o, h !! i = Some o -> h' !! i = Some o) /\
    h' !! a = Some A /\ h' !! b = Some B /\
    ((~ rebuilds A B /\ r = a /\ h' = h) \/
     (rebuilds A B /\
      h !! r = None /\ r <> a /\ r <> b /\
      exists o,
        h' = h ++ [o] /\ h' !! r = Some o /\
        Operation.op_type o = Operation.op_type A /\
        Operation.agent_id o = Operation.agent_id A /\
        (Operation.op_type B = INSERT ->
         Operation.position o =
           Operation.position A + len (or_empty (Operation.content B))) /\
        (Operation.op_type B = DELETE ->
         Operation.position A >
           Operation.position B + or_zero (Operation.length B) ->
         Operation.position o =
           Operation.position A - or_zero (Operation.length B)) /\
        (Operation.op_type B = DELETE ->
         Operation.position A <=
           Operation.position B + or_zero (Operation.length B) ->
         Operation.position o = Operation.position B))).
Proof.
  intros Ha Hb.
  destruct (transform_operation_branches h a b A B Ha Hb)
    as [[Hno ->] | (Hyes & o & -> & Hk & Hag & Hp1 & Hp2 & Hp3)].
  - exists a, h. split_and!; auto.
  - exists (length h), (h ++ [o]).
    assert (forall i x, h !! i = Some x -> (h ++ [o]) !! i = Some x) as Hkeep.
    { intros i x Hi. by apply lookup_app_l_Some. }
    split_and!; auto. right.
    pose proof (lookup_lt_Some _ _ _ Ha). pose proof (lookup_lt_Some _ _ _ Hb).
    split_and!; [done | by apply lookup_ge_None_2 | lia | lia |].
    exists o.
    split_and!; [done | by rewrite lookup_app_r, Nat.sub_diag | done..].
Qed.

End TransformClaims.

Lemma transform_insert_tie_break_witness :
  DocumentState.transform_operation sample_now sample_md5 0 1 two_inserts =
    Some (0%nat, two_inserts) /\
  exists B',
    DocumentState.transform_operation sample_now sample_md5 1 0 two_inserts =
      Some (2%nat, two_inserts ++ [B']) /\
    Operation.position B' = 5 + 3 /\
    Operation.content B' = Some "xy".
Proof.
  destruct (transform_insert_tie_break sample_now sample_md5
              two_inserts two_inserts 0 1
              (insert_at 5 "abc" "alice") (insert_at 5 "xy" "bob"))
    as [(_ & H01 & B' & H10 & _ & Hp & Hc & _) | (Hlt & _)];
    [reflexivity | reflexivity | reflexivity | reflexivity
    | reflexivity | reflexivity | reflexivity
    | discriminate | | discriminate Hlt].
  split; [exact H01|]. exists B'. split_and!; [exact H10 | exact Hp | exact Hc].
Defined.

Lemma transform_insert_against_delete_witness :
  exists A',
    DocumentState.transform_operation sample_now sample_md5 0 1 insert_and_delete =
      Some (2%nat, insert_and_delete ++ [A']) /\
    Operation.position A' = 9 - 3 /\
    Operation.op_type A' = INSERT /\
    Operation.content A' = Some "abc" /\
    Operation.agent_id A' = "alice".
Proof.
  apply (transform_insert_against_delete sample_now sample_md5 insert_and_delete
           0 1 (insert_at 9 "abc" "alice") (delete_at 4 3 "bob") 3);
    [reflexivity | reflexivity | reflexivity | reflexivity | reflexivity
    | discriminate | reflexivity].
Defined.

(** C9, as stated, fails: transforming alice's Insert at 5 against bob's
    Insert at 5 returns the first argument itself, the object at reference
    0, and constructs nothing: the store is as it was. *)
Lemma transform_returns_op1_itself :
  DocumentState.transform_operation sample_now sample_md5 0 1 two_inserts =
    Some (0%nat, two_inserts).
Proof. reflexivity. Qed.

Lemma transform_returns_op1_or_new_witness :
  exists o,
    DocumentState.transform_operation sample_now sample_md5 1 0 two_inserts =
      Some (2%nat, two_inserts ++ [o]) /\
    Operation.op_type o = INSERT /\
    Operation.agent_id o = "bob" /\
    Operation.position o = 5 + 3 /\
    (two_inserts ++ [o]) !! 0%nat = Some (insert_at 5 "abc" "alice") /\
    (two_inserts ++ [o]) !! 1%nat = Some (insert_at 5 "xy" "bob").
Proof.
  destruct (transform_returns_op1_or_new sample_now sample_md5 two_inserts 1 0
              (insert_at 5 "xy" "bob") (insert_at 5 "abc" "alice")
              eq_refl eq_refl)
    as (r & h' & Ht & _ & Hb & Ha & [(Hno & _) | (_ & _ & _ & _ & o & -> & _ & Hk & Hag & Hpos & _)]).
  - exfalso. apply Hno. left. split_and!; [reflexivity | reflexivity |].
    right. split; reflexivity.
  - exists o. pose proof Ht as Hr. vm_compute in Hr. injection Hr as -> _.
    split_and!; [exact Ht | exact Hk | exact Hag | exact (Hpos eq_refl)
                | exact Ha | exact Hb].
Defined.

(** ** get_pending_operations *)

Lemma list_index_middle `{EqDecision A} (pre post : list A) (x : A) :
  x ∉ pre -> list_index (pre ++ x :: post) x = Some (length pre).
Proof.
  induction pre as [|y pre IH]; intros Hx; simpl.
  - by rewrite decide_True.
  - apply not_elem_of_cons in Hx as [Hne Hx].
    rewrite decide_False by done. by rewrite IH.
Qed.

Lemma pending_from_suffix (pre ops : list Operation.t) (since_version : Z) :
  NoDup (pre ++ ops) ->
  0 <= since_version ->
  CollaborationManager.pending_from (pre ++ ops) ops since_version =
    Some (drop (Z.to_nat since_version - length pre) ops).
Proof.
  revert pre. induction ops as [|op ops IH]; intros pre Hnd Hs; simpl.
  - by rewrite drop_nil.
  - rewrite list_index_middle; cycle 1.
    { apply NoDup_app in Hnd as (_ & Hdisj & _).
      intros Hin. apply (Hdisj op Hin). by left. }
    simpl. specialize (IH (pre ++ [op])).
    rewrite <- app_assoc in IH. simpl in IH. rewrite IH by done. simpl.
    rewrite length_app. simpl.
    destruct (Z.leb_spec since_version (Z.of_nat (length pre))).
    + replace (Z.to_nat since_version - length pre)%nat with 0%nat by lia.
      replace (Z.to_nat since_version - (length pre + 1))%nat with 0%nat by lia.
      done.
    + replace (Z.to_nat since_version - length pre)%nat
        with (S (Z.to_nat since_version - (length pre + 1))) by lia.
      done.
Qed.

(** When no operation occurs twice in the log and [since_version] is not
    negative, the comprehension of [get_pending_operations] is the suffix
    [operations[since_version:]]. *)
Lemma pending_is_suffix_without_repeats (ops : list Operation.t) (since_version : Z) :
  NoDup ops ->
  0 <= since_version ->
  CollaborationManager.pending_from ops ops since_version =
    Some (list_slice_from ops since_version).
Proof.
  intros Hnd Hs. rewrite (pending_from_suffix [] ops) by done.
  unfold list_slice_from. destruct (Z.ltb_spec since_version 0); [lia|].
  simpl. by rewrite Nat.sub_0_r.
Qed.

(** C8, at the failing input: after the same Insert has been accepted twice
    the log holds it at indices 0 and 1; [get_pending_operations] since
    version 1 returns nothing, because [operations.index(op)] finds index 0
    for both entries, while the suffix [operations[1:]] holds the second
    entry. *)
Lemma pending_operations_miss_repeated_operation :
  exists ses,
    CollaborationManager.get_session (run resubmitted_calls) "doc1" = Some ses /\
    DocumentState.operations (CollaborativeSession.document_state ses) =
      [insert_at 5 " Beautiful" "agent1"; insert_at 5 " Beautiful" "agent1"] /\
    DocumentState.version (CollaborativeSession.document_state ses) = 2 /\
    CollaborationManager.get_pending_operations (run resubmitted_calls) "doc1" 1 =
      Some [] /\
    list_slice_from
      (DocumentState.operations (CollaborativeSession.document_state ses)) 1 =
      [insert_at 5 " Beautiful" "agent1"].
Proof. eexists. split; [reflexivity|]. repeat split. Qed.

(** * Further properties of the module *)

(** ** apply_operation: when it succeeds, and a Delete of negative length *)

Section ApplyMore.
Import DocumentState.

(** X1: [apply_operation] returns true exactly for a Format, for an Insert
    with non-empty content at a position in [[0, len content]], and for a
    Delete with a length other than 0 at a position in [[0, len content)];
    whenever it returns false the whole state is as it was. *)
Theorem apply_operation_succeeds_iff (s : t) (op : Operation.t) :
  ((apply_operation s op).2 = true <-> accepts s op) /\
  ((apply_operation s op).2 = false -> (apply_operation s op).1 = s).
Proof.
  split; [apply apply_operation_true_iff|].
  destruct (apply_operation_cases s op) as [-> | [c ->]]; done.
Qed.

(** X2: a Delete whose length [n] is negative passes the guard (a negative
    number is truthy). At a position [p] in [[0, len content)] with
    [0 <= p + n] it removes nothing: the new content is
    [c[:p] + c[p + n:]], which repeats the [-n] characters before [p] and is
    longer than the old content by [-n]. *)
Theorem apply_delete_negative_length (s : t) (op : Operation.t) (n : Z) :
  Operation.op_type op = DELETE ->
  Operation.length op = Some n ->
  n < 0 ->
  0 <= Operation.position op < len (content s) ->
  0 <= Operation.position op + n ->
  (apply_operation s op).2 = true /\
  content (apply_operation s op).1 =
    slice_to (content s) (Operation.position op) +:+
    slice_from (content s) (Operation.position op + n) /\
  len (content (apply_operation s op).1) = len (content s) - n /\
  version (apply_operation s op).1 = version s + 1.
Proof.
  intros Hk Hn Hneg Hp Hpn.
  rewrite (apply_operation_delete s op n) by (done || lia). simpl.
  replace (Z.min (Operation.position op + n) (len (content s)))
    with (Operation.position op + n) by lia.
  repeat split.
  rewrite len_app, len_slice_to, len_slice_from by lia. lia.
Qed.

Lemma apply_delete_negative_length_witness :
  (apply_operation doc_hello (delete_at 3 (-2) "a1")).2 = true /\
  content (apply_operation doc_hello (delete_at 3 (-2) "a1")).1 = "Helello" /\
  len (content (apply_operation doc_hello (delete_at 3 (-2) "a1")).1) = 5 - -2 /\
  version (apply_operation doc_hello (delete_at 3 (-2) "a1")).1 = 1.
Proof.
  apply (apply_delete_negative_length doc_hello (delete_at 3 (-2) "a1") (-2));
    [reflexivity | reflexivity | reflexivity
    | vm_compute; split; [discriminate | reflexivity] | discriminate].
Defined.

End ApplyMore.

(** ** Operation: what the constructor fills in *)

Section PostInitProperties.
Variable now : string.
Variable md5 : string -> string.

Lemma length_str_take_le n s : (String.length (str_take n s) <= n)%nat.
Proof. rewrite length_str_take. lia. Qed.

(** X3: [__post_init__] only fills what is missing: it keeps the six other
    fields, keeps a timestamp and an op_id that were supplied, and running it
    again changes nothing. An op_id it generates has at most 8 characters
    and is computed from op_type, position, timestamp and agent_id alone, so
    two operations that agree on these get the same generated id whatever
    their content, length and attributes. *)
Theorem post_init_fills_missing (o o' : Operation.t) :
  Operation.post_init now md5 (Operation.post_init now md5 o) =
    Operation.post_init now md5 o /\
  (Operation.op_type (Operation.post_init now md5 o) = Operation.op_type o /\
   Operation.position (Operation.post_init now md5 o) = Operation.position o /\
   Operation.content (Operation.post_init now md5 o) = Operation.content o /\
   Operation.length (Operation.post_init now md5 o) = Operation.length o /\
   Operation.attributes (Operation.post_init now md5 o) = Operation.attributes o /\
   Operation.agent_id (Operation.post_init now md5 o) = Operation.agent_id o) /\
  (Operation.timestamp o <> "" ->
   Operation.timestamp (Operation.post_init now md5 o) = Operation.timestamp o) /\
  (Operation.op_id o <> "" ->
   Operation.op_id (Operation.post_init now md5 o) = Operation.op_id o) /\
  (Operation.op_id o = "" ->
   len (Operation.op_id (Operation.post_init now md5 o)) <= 8) /\
  (Operation.op_id o = "" -> Operation.op_id o' = "" ->
   Operation.op_type o = Operation.op_type o' ->
   Operation.position o = Operation.position o' ->
   Operation.agent_id o = Operation.agent_id o' ->
   Operation.timestamp (Operation.post_init now md5 o) =
     Operation.timestamp (Operation.post_init now md5 o') ->
   Operation.op_id (Operation.post_init now md5 o) =
     Operation.op_id (Operation.post_init now md5 o')).
Proof.
  destruct o as [k p c l at_ ag ts id], o' as [k' p' c' l' at' ag' ts' id'].
  unfold Operation.post_init; cbn -[str_take]. split_and!; try done.
  - destruct ts as [|x ts]; [destruct now as [|z now']|];
      (destruct id as [|y id]; [|done]); cbn -[str_take];
      by destruct (str_take 8 (md5 _)).
  - by destruct ts.
  - by destruct id.
  - intros ->. unfold len. apply (Nat2Z.inj_le _ 8), length_str_take_le.
  - intros -> -> <- <- <- Hts. by rewrite Hts.
Qed.

End PostInitProperties.

(** ** transform_operation: the remaining rules *)

Section TransformMore.
Variable now : string.
Variable md5 : string -> string.

Local Abbreviation transform := (DocumentState.transform_operation now md5).

(** X4: two Inserts at different positions. The one at the smaller position
    is returned as it is; the one at the greater position is rebuilt at its
    position plus [len(op2.content)], with its own content and agent and no
    length. *)
Theorem transform_insert_insert_apart
    (h : store) (a b : ref) (A B : Operation.t) :
  h !! a = Some A -> h !! b = Some B ->
  Operation.op_type A = INSERT -> Operation.op_type B = INSERT ->
  (Operation.position A < Operation.position B ->
   transform a b h = Some (a, h)) /\
  (Operation.position B < Operation.position A ->
   exists A',
     transform a b h = Some (length h, h ++ [A']) /\
     Operation.op_type A' = INSERT /\
     Operation.position A' =
       Operation.position A + len (or_empty (Operation.content B)) /\
     Operation.content A' = Operation.content A /\
     Operation.length A' = None /\
     Operation.agent_id A' = Operation.agent_id A).
Proof.
  intros Ha Hb HkA HkB.
  split; intros Hp; run_transform Ha Hb; rewrite HkA, HkB.
  - by destruct (Z.ltb_spec (Operation.position A) (Operation.position B)); [|lia].
  - destruct (Z.ltb_spec (Operation.position A) (Operation.position B)); [lia|].
    destruct (Z.gtb_spec (Operation.position A) (Operation.position B)); [|lia].
    eexists. split; [reflexivity|done].
Qed.

(** X5: a Delete transformed against an Insert. Before the Insert's position
    the Delete is returned as it is; at or after it, the Delete is rebuilt
    at its position plus [len(op2.content)], with its own length and agent
    and no content. *)
Theorem transform_delete_against_insert
    (h : store) (a b : ref) (A B : Operation.t) :
  h !! a = Some A -> h !! b = Some B ->
  Operation.op_type A = DELETE -> Operation.op_type B = INSERT ->
  (Operation.position A < Operation.position B ->
   transform a b h = Some (a, h)) /\
  (Operation.position B <= Operation.position A ->
   exists A',
     transform a b h = Some (length h, h ++ [A']) /\
     Operation.op_type A' = DELETE /\
     Operation.position A' =
       Operation.position A + len (or_empty (Operation.content B)) /\
     Operation.length A' = Operation.length A /\
     Operation.content A' = None /\
     Operation.agent_id A' = Operation.agent_id A).
Proof.
  intros Ha Hb HkA HkB.
  split; intros Hp; run_transform Ha Hb; rewrite HkA, HkB.
  - by destruct (Z.ltb_spec (Operation.position A) (Operation.position B)); [|lia].
  - destruct (Z.ltb_spec (Operation.position A) (Operation.position B)); [lia|].
    eexists. split; [reflexivity|done].
Qed.

(** X6: the pairings without a rule. A Delete against a Delete, a Format or
    a CursorMove against anything, and anything against a Format or a
    CursorMove are returned as they are, whatever the positions: the call
    returns its first argument and constructs nothing. *)
Theorem transform_without_rule_returns_op1
    (h : store) (a b : ref) (A B : Operation.t) :
  h !! a = Some A -> h !! b = Some B ->
  (Operation.op_type A = DELETE /\ Operation.op_type B = DELETE) \/
  Operation.op_type A = FORMAT \/ Operation.op_type A = CURSOR \/
  Operation.op_type B = FORMAT \/ Operation.op_type B = CURSOR ->
  transform a b h = Some (a, h).
Proof.
  intros Ha Hb Hk. run_transform Ha Hb.
  destruct (Operation.op_type A), (Operation.op_type B); try done;
    destruct Hk as [[? ?] | [? | [? | [? | ?]]]]; done.
Qed.

(** X7: an Operation that [transform_operation] constructs is a new edit as
    far as its identity goes: it has no attributes, its timestamp is the
    clock's reading at the call, and its op_id is generated from its own
    kind, new position, that timestamp and the agent. Nothing of the
    original's attributes, timestamp or op_id is carried over. *)
Theorem transform_new_operation_identity
    (h h' : store) (a b r : ref) (A B : Operation.t) :
  h !! a = Some A -> h !! b = Some B ->
  transform a b h = Some (r, h') ->
  r <> a ->
  exists A',
    h' !! r = Some A' /\
    Operation.attributes A' = None /\
    Operation.timestamp A' = now /\
    Operation.op_id A' =
      str_take 8
        (md5 (OperationType_.value (Operation.op_type A) +:+
              str_of_int (Operation.position A') +:+ now +:+
              Operation.agent_id A)).
Proof.
  intros Ha Hb Ht Hr. revert Ht. run_transform Ha Hb.
  pose proof (lookup_lt_Some _ _ _ Ha) as Hlt.
  assert (forall k p c l,
            alloc (Operation.new now md5 k p c l (Operation.agent_id A)) h =
              Some (r, h') ->
            k = Operation.op_type A ->
            exists A',
              h' !! r = Some A' /\
              Operation.attributes A' = None /\
              Operation.timestamp A' = now /\
              Operation.op_id A' =
                str_take 8
                  (md5 (OperationType_.value (Operation.op_type A) +:+
                        str_of_int (Operation.position A') +:+ now +:+
                        Operation.agent_id A))) as Hnew.
  { intros k p c l [= <- <-] ->. eexists. split.
    - by rewrite lookup_app_r, Nat.sub_diag.
    - split_and!; [done | by destruct now | done]. }
  destruct (Operation.op_type A), (Operation.op_type B);
    repeat case_match;
    try (intros [= <- <-]; done);
    intros Halloc; eapply Hnew; eauto.
Qed.

End TransformMore.

Lemma transform_insert_insert_apart_witness :
  exists A',
    DocumentState.transform_operation sample_now sample_md5 0 1 inserts_apart =
      Some (2%nat, inserts_apart ++ [A']) /\
    Operation.op_type A' = INSERT /\
    Operation.position A' = 7 + 2 /\
    Operation.content A' = Some "abc" /\
    Operation.length A' = None /\
    Operation.agent_id A' = "alice".
Proof.
  apply (transform_insert_insert_apart sample_now sample_md5 inserts_apart 0 1
           (insert_at 7 "abc" "alice") (insert_at 2 "xy" "bob"));
    reflexivity.
Defined.

Lemma transform_delete_against_insert_witness :
  exists A',
    DocumentState.transform_operation sample_now sample_md5 0 1 delete_and_insert =
      Some (2%nat, delete_and_insert ++ [A']) /\
    Operation.op_type A' = DELETE /\
    Operation.position A' = 10 + 2 /\
    Operation.length A' = Some 3 /\
    Operation.content A' = None /\
    Operation.agent_id A' = "alice".
Proof.
  apply (transform_delete_against_insert sample_now sample_md5 delete_and_insert
           0 1 (delete_at 10 3 "alice") (insert_at 5 "xy" "bob"));
    [reflexivity | reflexivity | reflexivity | reflexivity | discriminate].
Defined.

Lemma transform_without_rule_returns_op1_witness :
  DocumentState.transform_operation sample_now sample_md5 0 1 two_deletes =
    Some (0%nat, two_deletes).
Proof.
  apply (transform_without_rule_returns_op1 sample_now sample_md5 two_deletes 0 1
           (delete_at 4 3 "alice") (delete_at 1 2 "bob"));
    [reflexivity | reflexivity | left; split; reflexivity].
Defined.

Lemma transform_new_operation_identity_witness :
  exists A',
    (inserts_apart ++
       [Operation.new sample_now sample_md5 INSERT 9 (Some "abc") None "alice"])
      !! 2%nat = Some A' /\
    Operation.attributes A' = None /\
    Operation.timestamp A' = sample_now /\
    Operation.op_id A' =
      str_take 8
        (sample_md5 ("insert" +:+ str_of_int (Operation.position A') +:+
                     sample_now +:+ "alice")).
Proof.
  apply (transform_new_operation_identity sample_now sample_md5 inserts_apart _
           0 1 2 (insert_at 7 "abc" "alice") (insert_at 2 "xy" "bob"));
    [reflexivity | reflexivity | reflexivity | discriminate].
Defined.

(** ** CollaborationManager: what one call does *)

Section ManagerCalls.
Import CollaborationManager.

Lemma set_document_state_same ses :
  CollaborativeSession.set_document_state ses
    (CollaborativeSession.document_state ses) = ses.
Proof. by destruct ses. Qed.

Lemma manager_eq (m m' : t) :
  sessions m = sessions m' -> operation_queue m = operation_queue m' -> m = m'.
Proof. destruct m, m'; simpl; congruence. Qed.

(** X8: [create_session] is a get-or-create. The session it returns is the
    one filed under the document id afterwards; when the document has a
    session already the manager is left as it is and that session is
    returned, so a second call returns the session of the first and its
    [initial_content] is ignored. A session that is created starts with the
    given content, version 0, an empty log and no agents. Sessions of other
    documents and the queue are never touched. *)
Theorem create_session_get_or_create (m : t) (d c0 : string) :
  get_session (create_session m d c0).1 d = Some (create_session m d c0).2 /\
  (forall ses, get_session m d = Some ses -> create_session m d c0 = (m, ses)) /\
  (forall c1,
     create_session (create_session m d c0).1 d c1 =
       ((create_session m d c0).1, (create_session m d c0).2)) /\
  (get_session m d = None ->
   DocumentState.content
     (CollaborativeSession.document_state (create_session m d c0).2) = c0 /\
   DocumentState.version
     (CollaborativeSession.document_state (create_session m d c0).2) = 0 /\
   DocumentState.operations
     (CollaborativeSession.document_state (create_session m d c0).2) = [] /\
   CollaborativeSession.connected_agents (create_session m d c0).2 = ∅) /\
  (forall d', d' <> d ->
     get_session (create_session m d c0).1 d' = get_session m d') /\
  operation_queue (create_session m d c0).1 = operation_queue m.
Proof.
  assert (get_session (create_session m d c0).1 d = Some (create_session m d c0).2)
    as Hget.
  { unfold get_session, create_session.
    destruct (sessions m !! d) as [ses|] eqn:Hd; simpl; [done|].
    by rewrite lookup_insert_eq. }
  split_and!.
  - done.
  - unfold get_session, create_session. by intros ses ->.
  - intros c1. unfold get_session in Hget.
    unfold create_session at 1. by rewrite Hget.
  - unfold get_session, create_session. by intros ->.
  - intros d' Hne. unfold get_session. rewrite create_session_sessions.
    destruct (sessions m !! d); [done|]. by rewrite lookup_insert_ne.
  - unfold create_session. by destruct (sessions m !! d).
Qed.

(** X9: a successful [process_operation]. When the result reports success,
    the document has a session, the operation is one [apply_operation]
    accepts, the reported version is the old version plus one and the
    reported id is the operation's; afterwards the operation is the last
    entry of the document's log and of the queue, and the sessions of other
    documents are as they were. *)
Theorem process_operation_success
    (m : t) (d : string) (op : Operation.t) (v : Z) (id : string) :
  (process_operation m d op).2 = Success v id ->
  exists ses ses',
    get_session m d = Some ses /\
    accepts (CollaborativeSession.document_state ses) op /\
    v = DocumentState.version (CollaborativeSession.document_state ses) + 1 /\
    id = Operation.op_id op /\
    get_session (process_operation m d op).1 d = Some ses' /\
    DocumentState.version (CollaborativeSession.document_state ses') = v /\
    DocumentState.operations (CollaborativeSession.document_state ses') =
      DocumentState.operations (CollaborativeSession.document_state ses) ++ [op] /\
    operation_queue (process_operation m d op).1 =
      operation_queue m ++ [(d, op)] /\
    (forall d', d' <> d ->
       get_session (process_operation m d op).1 d' = get_session m d').
Proof.
  unfold process_operation, get_session.
  destruct (sessions m !! d) as [ses|] eqn:Hd; [|done].
  pose proof (apply_operation_true_iff
                (CollaborativeSession.document_state ses) op) as Hacc.
  pose proof (apply_operation_version
                (CollaborativeSession.document_state ses) op) as Hver.
  pose proof (apply_operation_log
                (CollaborativeSession.document_state ses) op) as Hlog.
  destruct (DocumentState.apply_operation
              (CollaborativeSession.document_state ses) op) as [ds ok].
  simpl in *. destruct ok; simpl; [|done].
  intros [= <- <-].
  exists ses, (CollaborativeSession.set_document_state ses ds).
  rewrite lookup_insert_eq. split_and!; try done.
  - by apply Hacc.
  - intros d' Hne. by rewrite lookup_insert_ne.
Qed.

(** X10: a failed [process_operation] changes nothing. When the result is a
    failure the manager afterwards equals the manager before (every session,
    every document and the queue), and the error tells the two causes apart:
    "Session not found" when the document has no session, "Failed to apply
    operation" when it has one and [apply_operation] refuses the
    operation. *)
Theorem process_operation_failure
    (m : t) (d : string) (op : Operation.t) (e : string) :
  (process_operation m d op).2 = Failure e ->
  (process_operation m d op).1 = m /\
  ((get_session m d = None /\ e = "Session not found") \/
   (exists ses,
      get_session m d = Some ses /\
      ~ accepts (CollaborativeSession.document_state ses) op /\
      e = "Failed to apply operation")).
Proof.
  unfold process_operation, get_session.
  destruct (sessions m !! d) as [ses|] eqn:Hd; simpl.
  - pose proof (apply_operation_true_iff
                  (CollaborativeSession.document_state ses) op) as Hacc.
    destruct (apply_operation_cases
                (CollaborativeSession.document_state ses) op) as [Hap | [c Hap]];
      rewrite Hap in *; simpl in *; [|done].
    intros [= <-]. split.
    + apply manager_eq; simpl; [|done].
      rewrite set_document_state_same. by apply insert_id.
    + right. exists ses. split_and!; [done | | done].
      intros Ha. apply Hacc in Ha. done.
  - intros [= <-]. split; [done|]. by left.
Qed.

End ManagerCalls.

Lemma process_operation_success_witness :
  exists ses ses',
    CollaborationManager.get_session hello_manager "doc1" = Some ses /\
    accepts (CollaborativeSession.document_state ses)
      (insert_at 5 " Beautiful" "agent1") /\
    1 = DocumentState.version (CollaborativeSession.document_state ses) + 1 /\
    "0a1b2c3d" = Operation.op_id (insert_at 5 " Beautiful" "agent1") /\
    CollaborationManager.get_session
      (CollaborationManager.process_operation hello_manager "doc1"
         (insert_at 5 " Beautiful" "agent1")).1 "doc1" = Some ses' /\
    DocumentState.version (CollaborativeSession.document_state ses') = 1 /\
    DocumentState.operations (CollaborativeSession.document_state ses') =
      DocumentState.operations (CollaborativeSession.document_state ses) ++
      [insert_at 5 " Beautiful" "agent1"] /\
    CollaborationManager.operation_queue
      (CollaborationManager.process_operation hello_manager "doc1"
         (insert_at 5 " Beautiful" "agent1")).1 =
      CollaborationManager.operation_queue hello_manager ++
      [("doc1", insert_at 5 " Beautiful" "agent1")] /\
    (forall d', d' <> "doc1" ->
       CollaborationManager.get_session
         (CollaborationManager.process_operation hello_manager "doc1"
            (insert_at 5 " Beautiful" "agent1")).1 d' =
       CollaborationManager.get_session hello_manager d').
Proof.
  apply (process_operation_success hello_manager "doc1"
           (insert_at 5 " Beautiful" "agent1") 1 "0a1b2c3d").
  reflexivity.
Defined.

Lemma process_operation_failure_witness :
  (CollaborationManager.process_operation hello_manager "doc1"
     (delete_at 100 1 "agent1")).1 = hello_manager /\
  ((CollaborationManager.get_session hello_manager "doc1" = None /\
    "Failed to apply operation" = "Session not found") \/
   (exists ses,
      CollaborationManager.get_session hello_manager "doc1" = Some ses /\
      ~ accepts (CollaborativeSession.document_state ses)
          (delete_at 100 1 "agent1") /\
      "Failed to apply operation" = "Failed to apply operation")).
Proof.
  apply (process_operation_failure hello_manager "doc1"
           (delete_at 100 1 "agent1") "Failed to apply operation").
  reflexivity.
Defined.

(** ** CollaborationManager: what holds after any sequence of calls *)

Section ManagerRuns.
Import CollaborationManager.

Lemma run_app cs cs' : run (cs ++ cs') = foldl step (run cs) cs'.
Proof. unfold run. by rewrite foldl_app. Qed.

Lemma apply_operation_document_id s op :
  DocumentState.document_id (DocumentState.apply_operation s op).1 =
    DocumentState.document_id s.
Proof. destruct (apply_operation_cases s op) as [-> | [c ->]]; done. Qed.

Lemma apply_operation_log_prefix s op :
  DocumentState.operations s `prefix_of`
    DocumentState.operations (DocumentState.apply_operation s op).1.
Proof.
  rewrite apply_operation_log.
  destruct (DocumentState.apply_operation s op).2; [by apply prefix_app_r|done].
Qed.

Lemma apply_operation_version_le s op :
  DocumentState.version s <=
    DocumentState.version (DocumentState.apply_operation s op).1.
Proof.
  rewrite apply_operation_version.
  destruct (DocumentState.apply_operation s op).2; lia.
Qed.

(** One call keeps every session, and only lengthens its log. *)
Lemma step_keeps_session m c d ses :
  sessions m !! d = Some ses ->
  exists ses',
    sessions (step m c) !! d = Some ses' /\
    DocumentState.operations (CollaborativeSession.document_state ses)
      `prefix_of`
      DocumentState.operations (CollaborativeSession.document_state ses') /\
    DocumentState.version (CollaborativeSession.document_state ses) <=
      DocumentState.version (CollaborativeSession.document_state ses').
Proof.
  intros Hd. destruct c as [d' c0 | d' op]; simpl.
  - rewrite create_session_sessions.
    destruct (sessions m !! d') eqn:Hd'.
    + exists ses. by split_and!.
    + destruct (decide (d' = d)) as [->|Hne]; [congruence|].
      rewrite lookup_insert_ne by done. exists ses. by split_and!.
  - rewrite process_operation_sessions.
    destruct (sessions m !! d') as [ses0|] eqn:Hd'.
    + destruct (decide (d' = d)) as [->|Hne].
      * rewrite lookup_insert_eq. assert (ses0 = ses) as -> by congruence.
        eexists. split; [done|]. simpl.
        split; [apply apply_operation_log_prefix | apply apply_operation_version_le].
      * rewrite lookup_insert_ne by done. exists ses. by split_and!.
    + exists ses. by split_and!.
Qed.

(** X11: sessions are never dropped and logs are append-only. A session a
    manager holds after some calls is still held after any further calls;
    the log it had is a prefix of the log it has then, and its version has
    not gone down. *)
Theorem sessions_persist_logs_grow
    (cs cs' : list call) (d : string) (ses : CollaborativeSession.t) :
  get_session (run cs) d = Some ses ->
  exists ses',
    get_session (run (cs ++ cs')) d = Some ses' /\
    DocumentState.operations (CollaborativeSession.document_state ses)
      `prefix_of`
      DocumentState.operations (CollaborativeSession.document_state ses') /\
    DocumentState.version (CollaborativeSession.document_state ses) <=
      DocumentState.version (CollaborativeSession.document_state ses').
Proof.
  unfold get_session. intros Hd.
  induction cs' as [|c cs' IH] using rev_ind.
  - rewrite app_nil_r. exists ses. by split_and!.
  - destruct IH as (ses1 & H1 & Hpre & Hver).
    rewrite app_assoc, run_snoc.
    destruct (step_keeps_session _ c d ses1 H1) as (ses2 & H2 & Hpre2 & Hver2).
    exists ses2. split_and!; [done | by etrans | lia].
Qed.

(** One call keeps the queue and the logs in step. *)
Lemma step_queue_matches_logs m c :
  (forall d, queued_for d (operation_queue m) =
             match sessions m !! d with
             | Some ses =>
                 DocumentState.operations (CollaborativeSession.document_state ses)
             | None => []
             end) ->
  forall d, queued_for d (operation_queue (step m c)) =
            match sessions (step m c) !! d with
            | Some ses =>
                DocumentState.operations (CollaborativeSession.document_state ses)
            | None => []
            end.
Proof.
  intros Hm d. specialize (Hm d) as Hd.
  destruct c as [d' c0 | d' op]; simpl.
  - rewrite create_session_sessions.
    replace (operation_queue (create_session m d' c0).1) with (operation_queue m)
      by (unfold create_session; by destruct (sessions m !! d')).
    destruct (sessions m !! d') eqn:Hd'; [done|].
    destruct (decide (d' = d)) as [->|Hne].
    + rewrite lookup_insert_eq. by rewrite Hd' in Hd.
    + by rewrite lookup_insert_ne.
  - rewrite process_operation_sessions.
    unfold process_operation, get_session.
    destruct (sessions m !! d') as [ses0|] eqn:Hd'; [|done].
    pose proof (apply_operation_log
                  (CollaborativeSession.document_state ses0) op) as Hlog.
    destruct (DocumentState.apply_operation
                (CollaborativeSession.document_state ses0) op) as [ds ok].
    simpl in Hlog. unfold queued_for in *.
    destruct (decide (d' = d)) as [->|Hne].
    + rewrite lookup_insert_eq. rewrite Hd' in Hd. simpl.
      destruct ok; simpl; rewrite Hlog; [|done].
      rewrite filter_app, fmap_app, Hd.
      by rewrite filter_cons_True.
    + rewrite lookup_insert_ne by done.
      destruct ok; simpl; [|done].
      rewrite filter_app, fmap_app, Hd.
      rewrite filter_cons_False by done. simpl. by rewrite app_nil_r.
Qed.

(** X12: the broadcast queue and the logs agree. After any sequence of
    calls, the operations queued for a document, in queue order, are exactly
    that document's log; nothing is queued for a document without a
    session. *)
Theorem queue_matches_logs (cs : list call) (d : string) :
  queued_for d (operation_queue (run cs)) =
    match get_session (run cs) d with
    | Some ses =>
        DocumentState.operations (CollaborativeSession.document_state ses)
    | None => []
    end.
Proof.
  unfold get_session. revert d.
  induction cs as [|c cs IH] using rev_ind; intros d.
  - unfold run. simpl. by rewrite lookup_empty.
  - rewrite run_snoc. by apply step_queue_matches_logs.
Qed.

End ManagerRuns.

(** ** get_state *)

Section Snapshot.
Import CollaborationManager.

Lemma step_keeps_ids m c :
  (forall d ses, sessions m !! d = Some ses ->
     CollaborativeSession.document_id ses = d /\
     DocumentState.document_id (CollaborativeSession.document_state ses) = d) ->
  forall d ses, sessions (step m c) !! d = Some ses ->
    CollaborativeSession.document_id ses = d /\
    DocumentState.document_id (CollaborativeSession.document_state ses) = d.
Proof.
  intros Hm d ses. destruct c as [d' c0 | d' op]; simpl.
  - rewrite create_session_sessions.
    destruct (sessions m !! d') eqn:Hd'; [by apply Hm|].
    destruct (decide (d' = d)) as [->|Hne].
    + rewrite lookup_insert_eq. by intros [= <-].
    + rewrite lookup_insert_ne by done. by apply Hm.
  - rewrite process_operation_sessions.
    destruct (sessions m !! d') as [ses0|] eqn:Hd'; [|by apply Hm].
    destruct (decide (d' = d)) as [->|Hne].
    + rewrite lookup_insert_eq. intros [= <-]. simpl.
      rewrite apply_operation_document_id. by apply Hm.
    + rewrite lookup_insert_ne by done. by apply Hm.
Qed.

Lemma run_keeps_ids cs d ses :
  sessions (run cs) !! d = Some ses ->
  CollaborativeSession.document_id ses = d /\
  DocumentState.document_id (CollaborativeSession.document_state ses) = d.
Proof.
  revert d ses. induction cs as [|c cs IH] using rev_ind.
  - intros d ses. unfold run. simpl. by rewrite lookup_empty.
  - rewrite run_snoc. by apply step_keeps_ids.
Qed.

(** X13: the snapshot [get_state] gives of a document a manager holds after
    any sequence of calls. It names the id the session is filed under, its
    length is the length of its content, its version is the number of
    logged operations, and it has no last operation exactly when the
    version is 0. *)
Theorem get_state_of_session
    (cs : list call) (d : string) (ses : CollaborativeSession.t) :
  get_session (run cs) d = Some ses ->
  DocumentState.snapshot_document_id
    (DocumentState.get_state (CollaborativeSession.document_state ses)) = d /\
  DocumentState.snapshot_length
    (DocumentState.get_state (CollaborativeSession.document_state ses)) =
    len (DocumentState.snapshot_content
           (DocumentState.get_state (CollaborativeSession.document_state ses))) /\
  DocumentState.snapshot_version
    (DocumentState.get_state (CollaborativeSession.document_state ses)) =
    Z.of_nat (length (DocumentState.operations
                        (CollaborativeSession.document_state ses))) /\
  (DocumentState.snapshot_last_operation
     (DocumentState.get_state (CollaborativeSession.document_state ses)) = None <->
   DocumentState.snapshot_version
     (DocumentState.get_state (CollaborativeSession.document_state ses)) = 0).
Proof.
  unfold get_session. intros Hd.
  destruct (run_keeps_ids cs d ses Hd) as [_ Hid].
  pose proof (sessions_ok_run cs d) as Hok. rewrite Hd in Hok.
  destruct Hok as (c0 & _ & Hv & _). unfold version_counts in Hv.
  unfold DocumentState.get_state. simpl. split_and!; try done.
  rewrite last_None, Hv.
  destruct (DocumentState.operations (CollaborativeSession.document_state ses));
    simpl; split; (done || lia).
Qed.

End Snapshot.

Lemma get_state_of_session_witness :
  exists ses,
    CollaborationManager.get_session (run hello_calls) "doc1" = Some ses /\
    DocumentState.get_state (CollaborativeSession.document_state ses) =
      DocumentState.mk_snapshot "doc1" "Hello Beautiful World" 1 21
        (Some (insert_at 5 " Beautiful" "agent1")) /\
    DocumentState.snapshot_version
      (DocumentState.get_state (CollaborativeSession.document_state ses)) =
      Z.of_nat (length (DocumentState.operations
                          (CollaborativeSession.document_state ses))).
Proof.
  eexists. split; [reflexivity|]. split; [reflexivity|].
  apply (get_state_of_session hello_calls "doc1"). reflexivity.
Defined.

(** ** get_pending_operations: what it returns in general *)

Section Pending.
Import CollaborationManager.

Lemma list_index_elem `{EqDecision A} (l : list A) (x : A) :
  x ∈ l -> exists i, list_index l x = Some i /\ (i < length l)%nat.
Proof.
  induction l as [|y l IH]; [by intros ?%elem_of_nil|].
  intros [-> | Hin]%elem_of_cons; simpl.
  - rewrite decide_True by done. exists 0%nat. split; [done|lia].
  - destruct (decide (y = x)); [exists 0%nat; split; [done|lia]|].
    destruct (IH Hin) as (i & -> & Hi). exists (S i). split; [done|lia].
Qed.

Lemma pending_from_spec (all ops : list Operation.t) (since_version : Z) :
  (forall x, x ∈ ops -> x ∈ all) ->
  exists r,
    pending_from all ops since_version = Some r /\
    r `sublist_of` ops /\
    (since_version <= 0 -> r = ops) /\
    (Z.of_nat (length all) <= since_version -> r = []) /\
    (forall x, x ∈ r <->
       x ∈ ops /\
       exists i, list_index all x = Some i /\ since_version <= Z.of_nat i).
Proof.
  induction ops as [|op ops IH]; intros Hall; simpl.
  - exists []. split_and!; try done.
    intros x. split; [by intros ?%elem_of_nil | by intros [?%elem_of_nil _]].
  - destruct (list_index_elem all op) as (i & Hi & Hlt);
      [apply Hall; by left|].
    destruct IH as (r & Hr & Hsub & Hall0 & Hnone & Hmem);
      [intros x Hx; apply Hall; by right|].
    rewrite Hi, Hr. simpl.
    destruct (Z.leb_spec since_version (Z.of_nat i)) as [Hle | Hgt].
    + exists (op :: r). split_and!; try done.
      * by apply sublist_skip.
      * intros H0. by rewrite Hall0.
      * intros Hbig. lia.
      * intros x. rewrite !elem_of_cons, Hmem. split.
        -- intros [-> | [Hx Hix]]; [split; [by left | eauto] | split; [by right | done]].
        -- intros [[-> | Hx] Hix]; [by left | right; done].
    + exists r. split_and!; try done.
      * by apply sublist_cons.
      * intros H0. lia.
      * intros x. rewrite elem_of_cons, Hmem. split.
        -- intros [Hx Hix]. split; [by right | done].
        -- intros [[-> | Hx] Hix]; [|done].
           destruct Hix as (j & Hj & Hle). rewrite Hi in Hj.
           injection Hj as <-. lia.
Qed.

(** The comprehension is a plain filter of the log, every entry kept or
    dropped by the index of its first equal entry. *)
Lemma pending_from_filter (all ops : list Operation.t) (since_version : Z) :
  (forall x, x ∈ ops -> x ∈ all) ->
  pending_from all ops since_version =
    Some (List.filter (first_index_from all since_version) ops).
Proof.
  induction ops as [|op ops IH]; intros Hall; simpl; [done|].
  destruct (list_index_elem all op) as (i & Hi & _); [apply Hall; by left|].
  rewrite IH by (intros x Hx; apply Hall; by right).
  unfold first_index_from at 2. rewrite Hi. simpl.
  by destruct (since_version <=? Z.of_nat i).
Qed.

(** X14: [get_pending_operations] never raises (the [ValueError] of
    [list.index] cannot occur, since every entry is searched for in the log
    it comes from). For a document without a session it returns the empty
    list. Otherwise it returns exactly the log filtered by the test
    [operations.index(op) >= since_version]: every log entry, as often as
    it occurs and in log order, whose first equal entry in the log is at an
    index [>= since_version], and no other. That is the whole log when
    [since_version <= 0] (a negative value does not count from the end) and
    nothing when [since_version >= len(operations)]. *)
Theorem get_pending_operations_spec (m : t) (d : string) (since_version : Z) :
  exists r,
    get_pending_operations m d since_version = Some r /\
    (get_session m d = None -> r = []) /\
    (forall ses, get_session m d = Some ses ->
       r = List.filter
             (first_index_from
                (DocumentState.operations (CollaborativeSession.document_state ses))
                since_version)
             (DocumentState.operations (CollaborativeSession.document_state ses)) /\
       r `sublist_of`
         DocumentState.operations (CollaborativeSession.document_state ses) /\
       (since_version <= 0 ->
        r = DocumentState.operations (CollaborativeSession.document_state ses)) /\
       (Z.of_nat (length (DocumentState.operations
                            (CollaborativeSession.document_state ses)))
          <= since_version -> r = []) /\
       (forall x, x ∈ r <->
          x ∈ DocumentState.operations (CollaborativeSession.document_state ses) /\
          exists i,
            list_index
              (DocumentState.operations (CollaborativeSession.document_state ses))
              x = Some i /\
            since_version <= Z.of_nat i)).
Proof.
  unfold get_pending_operations.
  destruct (get_session m d) as [ses|]; [|by exists []].
  destruct (pending_from_spec
              (DocumentState.operations (CollaborativeSession.document_state ses))
              (DocumentState.operations (CollaborativeSession.document_state ses))
              since_version) as (r & Hr & Hrest); [done|].
  pose proof (pending_from_filter
                (DocumentState.operations (CollaborativeSession.document_state ses))
                (DocumentState.operations (CollaborativeSession.document_state ses))
                since_version ltac:(done)) as Hf.
  rewrite Hr in Hf. injection Hf as Heq.
  exists r. split_and!; [done | done |]. by intros ses' [= <-].
Qed.

End Pending.

Lemma pending_is_suffix_without_repeats_witness :
  CollaborationManager.pending_from distinct_log distinct_log 1 =
    Some [insert_at 5 " World" "bob"; delete_at 0 1 "alice"].
Proof.
  apply (pending_is_suffix_without_repeats distinct_log 1); [|discriminate].
  unfold distinct_log. repeat (apply NoDup_cons; split);
    [ | | | apply NoDup_nil_2 ];
    rewrite ?elem_of_cons; intros H;
    repeat (destruct H as [H | H]; [discriminate H|]);
    by apply elem_of_nil in H.
Defined.

(** ** CollaborativeSession: agents, cursors and selections *)

Section Agents.
Import CollaborativeSession.

Lemma session_eq (s s' : t) :
  document_id s = document_id s' ->
  document_state s = document_state s' ->
  connected_agents s = connected_agents s' ->
  cursor_positions s = cursor_positions s' ->
  selection_ranges s = selection_ranges s' ->
  s = s'.
Proof. destruct s, s'; simpl; congruence. Qed.

(** X15: joining and leaving. An agent that leaves right after joining
    leaves the session as if it had only left; for an agent the session did
    not know (no entry, no cursor, no selection) that is the session as it
    was. Leaving twice is leaving once, and an unknown agent leaving changes
    nothing. *)
Theorem add_then_remove_agent
    (now : string) (ses : t) (a : string) (agent_info : gmap string string) :
  remove_agent (add_agent now ses a agent_info) a = remove_agent ses a /\
  remove_agent (remove_agent ses a) a = remove_agent ses a /\
  (connected_agents ses !! a = None ->
   cursor_positions ses !! a = None ->
   selection_ranges ses !! a = None ->
   remove_agent ses a = ses /\
   remove_agent (add_agent now ses a agent_info) a = ses).
Proof.
  assert (remove_agent (add_agent now ses a agent_info) a = remove_agent ses a)
    as Hadd.
  { apply session_eq; simpl; try done; by rewrite delete_insert_eq. }
  split_and!; [done | |].
  - apply session_eq; simpl; try done; by rewrite delete_delete_eq.
  - intros Hc Hp Hs.
    assert (remove_agent ses a = ses) as Hrm
      by (apply session_eq; simpl; try done; by apply delete_id).
    by rewrite Hadd.
Qed.

(** X16: what [add_agent] records. After it the agent is connected, its info
    is the given one with [joined_at] set to the clock's reading (also when
    the given info had a [joined_at] of its own), and its cursor is 0. The
    number of agents [get_session_info] reports grows by one for a new agent
    and stays for one that was connected. Selections are not touched: an
    agent that joins again gets its cursor reset but keeps the selection it
    had. Other agents and the document are as they were. *)
Theorem add_agent_records
    (now : string) (ses : t) (a : string) (agent_info : gmap string string) :
  (exists info',
     connected_agents (add_agent now ses a agent_info) !! a = Some info' /\
     info' !! "joined_at" = Some now /\
     (forall k, k <> "joined_at" -> info' !! k = agent_info !! k)) /\
  cursor_positions (add_agent now ses a agent_info) !! a = Some 0 /\
  info_agent_count (get_session_info (add_agent now ses a agent_info)) =
    (if decide (a ∈ info_connected_agents (get_session_info ses))
     then info_agent_count (get_session_info ses)
     else S (info_agent_count (get_session_info ses))) /\
  selection_ranges (add_agent now ses a agent_info) = selection_ranges ses /\
  (forall b, b <> a ->
     connected_agents (add_agent now ses a agent_info) !! b =
       connected_agents ses !! b /\
     cursor_positions (add_agent now ses a agent_info) !! b =
       cursor_positions ses !! b) /\
  document_state (add_agent now ses a agent_info) = document_state ses.
Proof.
  simpl. split_and!; try done.
  - eexists. rewrite lookup_insert_eq. split; [done|].
    split; [by rewrite lookup_insert_eq|].
    intros k Hk. by rewrite lookup_insert_ne.
  - by rewrite lookup_insert_eq.
  - rewrite map_size_insert.
    destruct (decide (a ∈ dom (connected_agents ses))) as [Hin | Hout].
    + apply elem_of_dom in Hin as [x ->]. done.
    + apply not_elem_of_dom in Hout. by rewrite Hout.
  - intros b Hb. by rewrite !lookup_insert_ne.
Qed.

(** X17: what holds of a session after any sequence of [add_agent],
    [remove_agent], [update_cursor] and [update_selection] calls, starting
    with no agents: every connected agent has a cursor position and a
    [joined_at] entry in its info, the agent count reported is the number
    of connected agents, and the document state has not been touched. *)
Theorem connected_agents_have_cursors
    (ses0 : t) (calls : list session_call) (a : string) :
  connected_agents ses0 = ∅ ->
  (a ∈ info_connected_agents (get_session_info (foldl session_step ses0 calls)) ->
   is_Some (cursor_positions (foldl session_step ses0 calls) !! a) /\
   exists info,
     connected_agents (foldl session_step ses0 calls) !! a = Some info /\
     is_Some (info !! "joined_at")) /\
  info_agent_count (get_session_info (foldl session_step ses0 calls)) =
    size (info_connected_agents (get_session_info (foldl session_step ses0 calls))) /\
  document_state (foldl session_step ses0 calls) = document_state ses0 /\
  document_id (foldl session_step ses0 calls) = document_id ses0.
Proof.
  intros Hempty. simpl. rewrite size_dom.
  split_and!; [| done | |].
  - revert a. induction calls as [|c calls IH] using rev_ind; intros a.
    + simpl. rewrite Hempty, dom_empty_L. by intros ?%elem_of_empty.
    + rewrite foldl_snoc. specialize (IH a).
      destruct c as [now b info | b | b p | b st en]; simpl.
      * rewrite dom_insert_L. destruct (decide (a = b)) as [->|Hne].
        -- intros _. rewrite !lookup_insert_eq. split; [done|].
           eexists. split; [done|]. by rewrite lookup_insert_eq.
        -- rewrite !lookup_insert_ne by done.
           intros [Hin%elem_of_singleton | Hin]%elem_of_union; [done|].
           by apply IH.
      * rewrite dom_delete_L. destruct (decide (a = b)) as [->|Hne].
        -- intros [_ Hnot]%elem_of_difference.
           destruct Hnot. by apply elem_of_singleton.
        -- rewrite !lookup_delete_ne by done.
           intros [Hin _]%elem_of_difference. by apply IH.
      * intros Hin. destruct (IH Hin) as [Hcur Hinfo]. split; [|done].
        destruct (decide (a = b)) as [->|Hne].
        -- by rewrite lookup_insert_eq.
        -- by rewrite lookup_insert_ne.
      * done.
  - induction calls as [|c calls IH] using rev_ind; [done|].
    rewrite foldl_snoc. by destruct c.
  - induction calls as [|c calls IH] using rev_ind; [done|].
    rewrite foldl_snoc. by destruct c.
Qed.

End Agents.

(** ** Concurrent Inserts converge *)

Section Convergence.

Lemma str_app_assoc s1 s2 s3 : (s1 +:+ s2) +:+ s3 = s1 +:+ (s2 +:+ s3).
Proof.
  induction s1 as [|c s1 IH]; [done|]. rewrite !str_app_cons. by rewrite IH.
Qed.

Lemma str_take_app_length x r n :
  n = String.length x -> str_take n (x +:+ r) = x.
Proof.
  intros ->. induction x as [|c x IH]; [by destruct r|].
  rewrite str_app_cons. simpl. by rewrite IH.
Qed.

Lemma str_drop_app_length x r n :
  n = String.length x -> str_drop n (x +:+ r) = r.
Proof.
  intros ->. induction x as [|c x IH]; [done|].
  rewrite str_app_cons. simpl. by rewrite IH.
Qed.

(** A string cut at two bounds [p <= q] inside it. *)
Lemma str_split3 (c : string) (p q : nat) :
  (p <= q <= String.length c)%nat ->
  exists x y z,
    c = x +:+ (y +:+ z) /\
    String.length x = p /\ String.length y = (q - p)%nat.
Proof.
  intros Hpq.
  exists (str_take p c), (str_take (q - p) (str_drop p c)),
         (str_drop (q - p) (str_drop p c)).
  rewrite !str_take_drop, !length_str_take, length_str_drop.
  split_and!; [done | lia | lia].
Qed.

(** Inserting [tA] at [p] and then [tB] at [q + len tA] gives what inserting
    [tB] at [q] and then [tA] at [p] gives, for [p <= q]. *)
(** An Insert at the end of a prefix [x] lands between [x] and the rest. *)
Lemma spliced_at_length (x r t : string) (p : Z) :
  p = len x -> spliced (x +:+ r) p t = (x +:+ t) +:+ r.
Proof.
  intros ->. unfold spliced, slice_to, slice_from.
  rewrite slice_index_nonneg by (unfold len; lia).
  unfold len. rewrite Nat2Z.id.
  by rewrite str_take_app_length, str_drop_app_length.
Qed.

(** Inserting [tA] at [p] and then [tB] at [q + len tA] gives what inserting
    [tB] at [q] and then [tA] at [p] gives, for [p <= q]. *)
Lemma spliced_commute (c tA tB : string) (p q : Z) :
  0 <= p <= q -> q <= len c ->
  spliced (spliced c p tA) (q + len tA) tB = spliced (spliced c q tB) p tA.
Proof.
  intros Hp Hq.
  destruct (str_split3 c (Z.to_nat p) (Z.to_nat q)) as (x & y & z & -> & Hx & Hy);
    [unfold len in Hq; lia|].
  assert (p = len x) as Hpx by (unfold len; lia).
  assert (q = len (x +:+ y)) as Hqxy by (rewrite len_app; unfold len; lia).
  rewrite (spliced_at_length x (y +:+ z) tA p Hpx).
  rewrite <- (str_app_assoc (x +:+ tA) y z).
  rewrite (spliced_at_length ((x +:+ tA) +:+ y) z tB)
    by (rewrite !len_app in *; lia).
  rewrite <- (str_app_assoc x y z).
  rewrite (spliced_at_length (x +:+ y) z tB q Hqxy).
  rewrite (str_app_assoc x y tB), (str_app_assoc x (y +:+ tB) z).
  rewrite (spliced_at_length x ((y +:+ tB) +:+ z) tA p Hpx).
  by rewrite !str_app_assoc.
Qed.

Lemma len_spliced (c t : string) (p : Z) :
  0 <= p <= len c -> len (spliced c p t) = len c + len t.
Proof.
  intros Hp. unfold spliced.
  rewrite !len_app, len_slice_to, len_slice_from by done. lia.
Qed.

Lemma apply_insert_spliced (s : DocumentState.t) (op : Operation.t) (text : string) :
  Operation.op_type op = INSERT ->
  Operation.content op = Some text ->
  text <> "" ->
  0 <= Operation.position op <= len (DocumentState.content s) ->
  DocumentState.apply_operation s op =
    (DocumentState.commit s
       (spliced (DocumentState.content s) (Operation.position op) text) op, true).
Proof. apply apply_operation_insert. Qed.

(** The Insert [A] that goes first and the Insert [B'] that [B] becomes
    behind it: applying [A] then [B'] gives the content that applying [B]
    then [A] gives. *)
Lemma insert_first_converges
    (s : DocumentState.t) (A B B' : Operation.t) (tA tB : string) :
  Operation.op_type A = INSERT -> Operation.op_type B = INSERT ->
  Operation.op_type B' = INSERT ->
  Operation.content A = Some tA -> tA <> "" ->
  Operation.content B = Some tB -> tB <> "" ->
  Operation.content B' = Some tB ->
  0 <= Operation.position A <= Operation.position B ->
  Operation.position B <= len (DocumentState.content s) ->
  Operation.position B' = Operation.position B + len tA ->
  (DocumentState.apply_operation (DocumentState.apply_operation s A).1 B').2 = true /\
  (DocumentState.apply_operation (DocumentState.apply_operation s B).1 A).2 = true /\
  DocumentState.content
    (DocumentState.apply_operation (DocumentState.apply_operation s A).1 B').1 =
  DocumentState.content
    (DocumentState.apply_operation (DocumentState.apply_operation s B).1 A).1 /\
  DocumentState.version
    (DocumentState.apply_operation (DocumentState.apply_operation s A).1 B').1 =
    DocumentState.version s + 2 /\
  DocumentState.version
    (DocumentState.apply_operation (DocumentState.apply_operation s B).1 A).1 =
    DocumentState.version s + 2.
Proof.
  intros HkA HkB HkB' HcA HtA HcB HtB HcB' HpA HpB HpB'.
  assert (0 <= len tA) as HlA by (unfold len; lia).
  assert (0 <= len tB) as HlB by (unfold len; lia).
  rewrite (apply_insert_spliced s A tA) by (done || lia).
  rewrite (apply_insert_spliced s B tB) by (done || lia).
  cbn [fst].
  rewrite (apply_insert_spliced _ B' tB);
    [| done | done | done | cbn [DocumentState.content DocumentState.commit];
                            rewrite len_spliced by lia; lia].
  rewrite (apply_insert_spliced _ A tA);
    [| done | done | done | cbn [DocumentState.content DocumentState.commit];
                            rewrite len_spliced by lia; lia].
  cbn [fst snd DocumentState.content DocumentState.version DocumentState.commit].
  split_and!; [done | done | | lia | lia].
  rewrite HpB'. by apply spliced_commute.
Qed.

End Convergence.

Lemma str_ltb_asym (s1 s2 : string) :
  String.ltb s1 s2 = true -> String.ltb s2 s1 = false.
Proof.
  unfold String.ltb. rewrite (String.compare_antisym s2 s1).
  by destruct (String.compare s1 s2).
Qed.

Section ConvergenceOfTransform.
Variable now : string.
Variable md5 : string -> string.

Local Abbreviation transform := (DocumentState.transform_operation now md5).

(** The Insert that goes first, by position and then by agent id, is
    returned as it is; the other one is rebuilt behind it. *)
Lemma transform_insert_priority (h : store) (a b : ref) (A B : Operation.t) :
  h !! a = Some A -> h !! b = Some B ->
  Operation.op_type A = INSERT -> Operation.op_type B = INSERT ->
  Operation.position A < Operation.position B \/
  (Operation.position A = Operation.position B /\
   String.ltb (Operation.agent_id A) (Operation.agent_id B) = true) ->
  transform a b h = Some (a, h) /\
  exists B',
    transform b a h = Some (length h, h ++ [B']) /\
    Operation.op_type B' = INSERT /\
    Operation.position B' =
      Operation.position B + len (or_empty (Operation.content A)) /\
    Operation.content B' = Operation.content B.
Proof.
  intros Ha Hb HkA HkB Hfirst. split.
  - run_transform Ha Hb. rewrite HkA, HkB.
    destruct Hfirst as [Hlt | [Heq Hag]].
    + by destruct (Z.ltb_spec (Operation.position A) (Operation.position B)); [|lia].
    + rewrite Heq, Z.ltb_irrefl, Hag.
      by destruct (Z.gtb_spec (Operation.position B) (Operation.position B)); [lia|].
  - run_transform Hb Ha. rewrite HkA, HkB.
    destruct (Z.ltb_spec (Operation.position B) (Operation.position A)); [lia|].
    destruct Hfirst as [Hlt | [Heq Hag]].
    + destruct (Z.gtb_spec (Operation.position B) (Operation.position A)); [|lia].
      eexists. split; [reflexivity|done].
    + destruct (Z.gtb_spec (Operation.position B) (Operation.position A)); [lia|].
      rewrite (str_ltb_asym _ _ Hag). eexists. split; [reflexivity|done].
Qed.

(** X18: two concurrent Inserts converge. Let A and B be Inserts with
    non-empty content at positions inside the same document, at different
    positions or from agents with different ids. Let A' be [transform(A, B)]
    and B' be [transform(B, A)]. Then applying A and then B' succeeds,
    applying B and then A' succeeds, and both orders end with the same
    content and with the version two higher. *)
Theorem concurrent_inserts_converge
    (s : DocumentState.t) (h : store) (a b : ref) (A B : Operation.t)
    (tA tB : string) :
  h !! a = Some A -> h !! b = Some B ->
  Operation.op_type A = INSERT -> Operation.op_type B = INSERT ->
  Operation.content A = Some tA -> tA <> "" ->
  Operation.content B = Some tB -> tB <> "" ->
  0 <= Operation.position A <= len (DocumentState.content s) ->
  0 <= Operation.position B <= len (DocumentState.content s) ->
  Operation.position A <> Operation.position B \/
  Operation.agent_id A <> Operation.agent_id B ->
  exists ra ha A' rb hb B',
    transform a b h = Some (ra, ha) /\ ha !! ra = Some A' /\
    transform b a h = Some (rb, hb) /\ hb !! rb = Some B' /\
    (DocumentState.apply_operation (DocumentState.apply_operation s A).1 B').2 = true /\
    (DocumentState.apply_operation (DocumentState.apply_operation s B).1 A').2 = true /\
    DocumentState.content
      (DocumentState.apply_operation (DocumentState.apply_operation s A).1 B').1 =
    DocumentState.content
      (DocumentState.apply_operation (DocumentState.apply_operation s B).1 A').1 /\
    DocumentState.version
      (DocumentState.apply_operation (DocumentState.apply_operation s A).1 B').1 =
      DocumentState.version s + 2 /\
    DocumentState.version
      (DocumentState.apply_operation (DocumentState.apply_operation s B).1 A').1 =
      DocumentState.version s + 2.
Proof.
  intros Ha Hb HkA HkB HcA HtA HcB HtB HpA HpB Hdiff.
  assert ((Operation.position A < Operation.position B \/
           (Operation.position A = Operation.position B /\
            String.ltb (Operation.agent_id A) (Operation.agent_id B) = true)) \/
          (Operation.position B < Operation.position A \/
           (Operation.position B = Operation.position A /\
            String.ltb (Operation.agent_id B) (Operation.agent_id A) = true)))
    as [HA | HB].
  { destruct (Z.lt_trichotomy (Operation.position A) (Operation.position B))
      as [? | [Heq | ?]]; [by left; left | | by right; left].
    destruct Hdiff as [? | Hag]; [done|].
    destruct (str_ltb_trichotomy _ _ Hag) as [[? _] | [? _]];
      [left; right | right; right]; by split. }
  - destruct (transform_insert_priority h a b A B Ha Hb HkA HkB HA)
      as (Hab & B' & Hba & HkB' & HpB' & HcB').
    rewrite HcA in HpB'. rewrite HcB in HcB'. simpl in HpB'.
    exists a, h, A, (length h), (h ++ [B']), B'.
    split_and!; [done | done | done | by rewrite lookup_app_r, Nat.sub_diag |..];
      apply (insert_first_converges s A B B' tA tB); try done; lia.
  - destruct (transform_insert_priority h b a B A Hb Ha HkB HkA HB)
      as (Hba & A' & Hab & HkA' & HpA' & HcA').
    rewrite HcB in HpA'. rewrite HcA in HcA'. simpl in HpA'.
    exists (length h), (h ++ [A']), A', b, h, B.
    assert (0 <= Operation.position B <= Operation.position A) as Hord by lia.
    destruct (insert_first_converges s B A A' tB tA HkB HkA HkA' HcB HtB HcA HtA
                HcA' Hord (proj2 HpA) HpA') as (H1 & H2 & H3 & H4 & H5).
    split_and!; [done | by rewrite lookup_app_r, Nat.sub_diag | done | done |..];
      done.
Qed.

End ConvergenceOfTransform.

(** ** A concurrent Insert and Delete converge outside the deleted span *)

Section InsertDelete.

Lemma str_split2 (c : string) (p : nat) :
  (p <= String.length c)%nat ->
  exists x r, c = x +:+ r /\ String.length x = p.
Proof.
  intros Hp. exists (str_take p c), (str_drop p c).
  rewrite str_take_drop, length_str_take. split; [done|lia].
Qed.

(** A Delete at the end of a prefix [x] that reaches to the end of [d]
    removes [d]. *)
Lemma removed_at_length (x d z : string) (p n : Z) :
  p = len x ->
  Z.min (p + n) (len (x +:+ (d +:+ z))) = len x + len d ->
  removed (x +:+ (d +:+ z)) p n = x +:+ z.
Proof.
  intros -> Hmin. unfold removed. rewrite Hmin.
  unfold slice_to, slice_from.
  rewrite !slice_index_nonneg by (unfold len; lia).
  rewrite str_take_app_length by (unfold len; lia).
  rewrite <- (str_app_assoc x d z).
  rewrite str_drop_app_length; [done|].
  rewrite length_str_app. unfold len. lia.
Qed.

Lemma apply_delete_removed (s : DocumentState.t) (op : Operation.t) (n : Z) :
  Operation.op_type op = DELETE ->
  Operation.length op = Some n ->
  n <> 0 ->
  0 <= Operation.position op < len (DocumentState.content s) ->
  DocumentState.apply_operation s op =
    (DocumentState.commit s
       (removed (DocumentState.content s) (Operation.position op) n) op, true).
Proof. apply apply_operation_delete. Qed.

(** An Insert at or before the start of the deleted span. *)
Lemma insert_before_delete_commute (c t : string) (p q n : Z) :
  0 <= p <= q -> q < len c -> 0 < n ->
  removed (spliced c p t) (q + len t) n = spliced (removed c q n) p t /\
  len (removed c q n) = len c - Z.min n (len c - q).
Proof.
  intros Hp Hq Hn.
  destruct (str_split3 c (Z.to_nat p) (Z.to_nat q)) as (x & y & r & -> & Hx & Hy);
    [unfold len in Hq; lia|].
  assert (p = len x) as Hpx by (unfold len; lia).
  assert (q = len (x +:+ y)) as Hqxy by (rewrite len_app; unfold len; lia).
  destruct (str_split2 r (Z.to_nat (Z.min n (len r)))) as (d & z & -> & Hd);
    [unfold len; lia|].
  assert (len d = Z.min n (len (d +:+ z))) as Hld by (unfold len in *; lia).
  rewrite (spliced_at_length x _ t p Hpx).
  assert (removed (x +:+ y +:+ d +:+ z) q n = (x +:+ y) +:+ z) as Hrem.
  { rewrite <- (str_app_assoc x y (d +:+ z)).
    apply removed_at_length; [done|]. rewrite !len_app in *. lia. }
  rewrite Hrem. split.
  - rewrite <- (str_app_assoc (x +:+ t) y (d +:+ z)).
    rewrite removed_at_length by (rewrite !len_app in *; lia).
    rewrite (str_app_assoc x y z).
    rewrite (spliced_at_length x _ t p Hpx). by rewrite !str_app_assoc.
  - rewrite !len_app in *. lia.
Qed.

(** An Insert at or after the end of the deleted span. *)
Lemma insert_after_delete_commute (c t : string) (p q n : Z) :
  0 <= q -> 0 < n -> q + n <= p -> p <= len c ->
  removed (spliced c p t) q n = spliced (removed c q n) (p - n) t /\
  len (removed c q n) = len c - n.
Proof.
  intros Hq Hn Hp Hpc.
  destruct (str_split3 c (Z.to_nat q) (Z.to_nat (q + n)))
    as (x & d & r & -> & Hx & Hd); [unfold len in Hpc; lia|].
  assert (q = len x) as Hqx by (unfold len; lia).
  assert (n = len d) as Hnd by (unfold len; lia).
  destruct (str_split2 r (Z.to_nat (p - q - n))) as (y & z & -> & Hy);
    [rewrite !len_app in Hpc; unfold len in *; lia|].
  assert (len y = p - q - n) as Hly by (unfold len; lia).
  assert (removed (x +:+ d +:+ y +:+ z) q n = x +:+ (y +:+ z)) as Hrem.
  { apply removed_at_length; [done|]. rewrite !len_app in *.
    assert (0 <= len z) by (unfold len; lia). lia. }
  rewrite Hrem. split.
  - replace (x +:+ d +:+ y +:+ z) with (((x +:+ d) +:+ y) +:+ z)
      by (by rewrite !str_app_assoc).
    rewrite (spliced_at_length ((x +:+ d) +:+ y) z t p)
      by (rewrite !len_app; lia).
    replace ((((x +:+ d) +:+ y) +:+ t) +:+ z) with (x +:+ (d +:+ ((y +:+ t) +:+ z)))
      by (by rewrite !str_app_assoc).
    rewrite removed_at_length; cycle 1.
    { done. }
    { rewrite !len_app in *.
      assert (0 <= len z) by (unfold len; lia).
      assert (0 <= len t) by (unfold len; lia). lia. }
    rewrite <- (str_app_assoc x y z).
    rewrite (spliced_at_length (x +:+ y) z t (p - n)) by (rewrite !len_app; lia).
    by rewrite !str_app_assoc.
  - rewrite !len_app in *. lia.
Qed.

End InsertDelete.

Section InsertDeleteTransform.
Variable now : string.
Variable md5 : string -> string.

Local Abbreviation transform := (DocumentState.transform_operation now md5).

(** X19: a concurrent Insert and Delete converge when the Insert is not
    strictly inside the deleted span. Let A be an Insert with non-empty
    content and B a Delete of positive length, both at positions valid in
    the same document, with A's position at or before B's, or at or after
    the end of B's span. Let A' be [transform(A, B)] and B' be
    [transform(B, A)]. Then applying A and then B' succeeds, applying B and
    then A' succeeds, and both orders end with the same content and with the
    version two higher. *)
Theorem concurrent_insert_delete_converge
    (s : DocumentState.t) (h : store) (a b : ref) (A B : Operation.t)
    (tA : string) (n : Z) :
  h !! a = Some A -> h !! b = Some B ->
  Operation.op_type A = INSERT -> Operation.op_type B = DELETE ->
  Operation.content A = Some tA -> tA <> "" ->
  Operation.length B = Some n -> 0 < n ->
  0 <= Operation.position A <= len (DocumentState.content s) ->
  0 <= Operation.position B < len (DocumentState.content s) ->
  Operation.position A <= Operation.position B \/
  Operation.position B + n <= Operation.position A ->
  exists ra ha A' rb hb B',
    transform a b h = Some (ra, ha) /\ ha !! ra = Some A' /\
    transform b a h = Some (rb, hb) /\ hb !! rb = Some B' /\
    (DocumentState.apply_operation (DocumentState.apply_operation s A).1 B').2 = true /\
    (DocumentState.apply_operation (DocumentState.apply_operation s B).1 A').2 = true /\
    DocumentState.content
      (DocumentState.apply_operation (DocumentState.apply_operation s A).1 B').1 =
    DocumentState.content
      (DocumentState.apply_operation (DocumentState.apply_operation s B).1 A').1 /\
    DocumentState.version
      (DocumentState.apply_operation (DocumentState.apply_operation s A).1 B').1 =
      DocumentState.version s + 2 /\
    DocumentState.version
      (DocumentState.apply_operation (DocumentState.apply_operation s B).1 A').1 =
      DocumentState.version s + 2.
Proof.
  intros Ha Hb HkA HkB HcA HtA HnB Hn HpA HpB Hout.
  assert (0 <= len tA) as HlA by (unfold len; lia).
  rewrite (apply_insert_spliced s A tA) by done.
  rewrite (apply_delete_removed s B n) by (done || lia).
  cbn [fst].
  destruct Hout as [Hbefore | Hafter].
  - (* the Insert is at or before the start of the span *)
    destruct (insert_before_delete_commute (DocumentState.content s) tA
                (Operation.position A) (Operation.position B) n)
      as [Hcomm Hlen]; [lia | lia | lia |].
    assert (transform a b h = Some (a, h)) as Hab.
    { run_transform Ha Hb. rewrite HkA, HkB.
      by destruct (Z.leb_spec (Operation.position A) (Operation.position B)); [|lia]. }
    assert (exists B',
              transform b a h = Some (length h, h ++ [B']) /\
              Operation.op_type B' = DELETE /\
              Operation.position B' = Operation.position B + len tA /\
              Operation.length B' = Some n) as (B' & Hba & HkB' & HpB' & HnB').
    { run_transform Hb Ha. rewrite HkA, HkB, HcA, HnB.
      destruct (Z.ltb_spec (Operation.position B) (Operation.position A)); [lia|].
      eexists. split; [reflexivity|done]. }
    exists a, h, A, (length h), (h ++ [B']), B'.
    rewrite (apply_delete_removed _ B' n);
      [| done | done | lia
       | cbn [DocumentState.content DocumentState.commit];
         rewrite len_spliced by lia; lia].
    rewrite (apply_insert_spliced _ A tA);
      [| done | done | done
       | cbn [DocumentState.content DocumentState.commit]; lia].
    cbn [fst snd DocumentState.content DocumentState.version DocumentState.commit].
    split_and!; [done | done | done | by rewrite lookup_app_r, Nat.sub_diag
                | done | done | by rewrite HpB' | lia | lia].
  - (* the Insert is at or after the end of the span *)
    destruct (insert_after_delete_commute (DocumentState.content s) tA
                (Operation.position A) (Operation.position B) n)
      as [Hcomm Hlen]; [lia | lia | lia | lia |].
    assert (transform b a h = Some (b, h)) as Hba.
    { run_transform Hb Ha. rewrite HkA, HkB.
      by destruct (Z.ltb_spec (Operation.position B) (Operation.position A)); [|lia]. }
    assert (exists A',
              transform a b h = Some (length h, h ++ [A']) /\
              Operation.op_type A' = INSERT /\
              Operation.position A' = Operation.position A - n /\
              Operation.content A' = Some tA) as (A' & Hab & HkA' & HpA' & HcA').
    { run_transform Ha Hb. rewrite HkA, HkB, HcA, HnB. simpl.
      destruct (Z.leb_spec (Operation.position A) (Operation.position B)); [lia|].
      destruct (Z.gtb_spec (Operation.position A) (Operation.position B + n)).
      - eexists. split; [reflexivity|done].
      - eexists. split; [reflexivity|]. split_and!; try done. simpl. lia. }
    exists (length h), (h ++ [A']), A', b, h, B.
    rewrite (apply_delete_removed _ B n);
      [| done | done | lia
       | cbn [DocumentState.content DocumentState.commit];
         rewrite len_spliced by lia; lia].
    rewrite (apply_insert_spliced _ A' tA);
      [| done | done | done
       | cbn [DocumentState.content DocumentState.commit]; lia].
    cbn [fst snd DocumentState.content DocumentState.version DocumentState.commit].
    split_and!; [done | by rewrite lookup_app_r, Nat.sub_diag | done | done
                | done | done | by rewrite HpA' | lia | lia].
Qed.

End InsertDeleteTransform.

(** ** Instances of the properties above *)

Lemma sessions_persist_logs_grow_witness :
  exists ses ses',
    CollaborationManager.get_session
      (run [CreateSession "doc1" "Hello World"]) "doc1" = Some ses /\
    CollaborationManager.get_session
      (run ([CreateSession "doc1" "Hello World"] ++
            [ProcessOperation "doc1" (insert_at 5 " Beautiful" "agent1")]))
      "doc1" = Some ses' /\
    DocumentState.operations (CollaborativeSession.document_state ses)
      `prefix_of`
      DocumentState.operations (CollaborativeSession.document_state ses') /\
    DocumentState.version (CollaborativeSession.document_state ses) <=
      DocumentState.version (CollaborativeSession.document_state ses').
Proof.
  eexists.
  destruct (sessions_persist_logs_grow
              [CreateSession "doc1" "Hello World"]
              [ProcessOperation "doc1" (insert_at 5 " Beautiful" "agent1")]
              "doc1" _ eq_refl) as (ses' & Hget & Hpre & Hver).
  exists ses'. split; [reflexivity|]. split_and!; [exact Hget | exact Hpre | exact Hver].
Defined.

Lemma connected_agents_have_cursors_witness :
  ("agent1" ∈ CollaborativeSession.info_connected_agents
     (CollaborativeSession.get_session_info
        (foldl session_step (CollaborativeSession.init "doc1") agent_calls)) ->
   is_Some (CollaborativeSession.cursor_positions
              (foldl session_step (CollaborativeSession.init "doc1") agent_calls)
              !! "agent1") /\
   exists info,
     CollaborativeSession.connected_agents
       (foldl session_step (CollaborativeSession.init "doc1") agent_calls)
       !! "agent1" = Some info /\
     is_Some (info !! "joined_at")) /\
  CollaborativeSession.info_agent_count
    (CollaborativeSession.get_session_info
       (foldl session_step (CollaborativeSession.init "doc1") agent_calls)) =
    size (CollaborativeSession.info_connected_agents
            (CollaborativeSession.get_session_info
               (foldl session_step (CollaborativeSession.init "doc1") agent_calls))) /\
  CollaborativeSession.document_state
    (foldl session_step (CollaborativeSession.init "doc1") agent_calls) =
    DocumentState.init "doc1" /\
  CollaborativeSession.document_id
    (foldl session_step (CollaborativeSession.init "doc1") agent_calls) = "doc1".
Proof.
  apply (connected_agents_have_cursors (CollaborativeSession.init "doc1")
           agent_calls "agent1").
  reflexivity.
Defined.

Lemma concurrent_inserts_converge_witness :
  exists ra ha A' rb hb B',
    DocumentState.transform_operation sample_now sample_md5 0 1 two_inserts =
      Some (ra, ha) /\ ha !! ra = Some A' /\
    DocumentState.transform_operation sample_now sample_md5 1 0 two_inserts =
      Some (rb, hb) /\ hb !! rb = Some B' /\
    (DocumentState.apply_operation
       (DocumentState.apply_operation doc_hello (insert_at 5 "abc" "alice")).1 B').2
      = true /\
    (DocumentState.apply_operation
       (DocumentState.apply_operation doc_hello (insert_at 5 "xy" "bob")).1 A').2
      = true /\
    DocumentState.content
      (DocumentState.apply_operation
         (DocumentState.apply_operation doc_hello (insert_at 5 "abc" "alice")).1 B').1 =
    DocumentState.content
      (DocumentState.apply_operation
         (DocumentState.apply_operation doc_hello (insert_at 5 "xy" "bob")).1 A').1 /\
    DocumentState.version
      (DocumentState.apply_operation
         (DocumentState.apply_operation doc_hello (insert_at 5 "abc" "alice")).1 B').1 =
      DocumentState.version doc_hello + 2 /\
    DocumentState.version
      (DocumentState.apply_operation
         (DocumentState.apply_operation doc_hello (insert_at 5 "xy" "bob")).1 A').1 =
      DocumentState.version doc_hello + 2.
Proof.
  apply (concurrent_inserts_converge sample_now sample_md5 doc_hello two_inserts
           0 1 (insert_at 5 "abc" "alice") (insert_at 5 "xy" "bob") "abc" "xy");
    [reflexivity | reflexivity | reflexivity | reflexivity
    | reflexivity | discriminate | reflexivity | discriminate
    | vm_compute; split; discriminate | vm_compute; split; discriminate
    | right; discriminate].
Defined.

Lemma concurrent_insert_delete_converge_witness :
  exists ra ha A' rb hb B',
    DocumentState.transform_operation sample_now sample_md5 0 1 insert_and_delete =
      Some (ra, ha) /\ ha !! ra = Some A' /\
    DocumentState.transform_operation sample_now sample_md5 1 0 insert_and_delete =
      Some (rb, hb) /\ hb !! rb = Some B' /\
    (DocumentState.apply_operation
       (DocumentState.apply_operation doc_hello_world
          (insert_at 9 "abc" "alice")).1 B').2 = true /\
    (DocumentState.apply_operation
       (DocumentState.apply_operation doc_hello_world
          (delete_at 4 3 "bob")).1 A').2 = true /\
    DocumentState.content
      (DocumentState.apply_operation
         (DocumentState.apply_operation doc_hello_world
            (insert_at 9 "abc" "alice")).1 B').1 =
    DocumentState.content
      (DocumentState.apply_operation
         (DocumentState.apply_operation doc_hello_world
            (delete_at 4 3 "bob")).1 A').1 /\
    DocumentState.version
      (DocumentState.apply_operation
         (DocumentState.apply_operation doc_hello_world
            (insert_at 9 "abc" "alice")).1 B').1 =
      DocumentState.version doc_hello_world + 2 /\
    DocumentState.version
      (DocumentState.apply_operation
         (DocumentState.apply_operation doc_hello_world
            (delete_at 4 3 "bob")).1 A').1 =
      DocumentState.version doc_hello_world + 2.
Proof.
  apply (concurrent_insert_delete_converge sample_now sample_md5 doc_hello_world
           insert_and_delete 0 1 (insert_at 9 "abc" "alice") (delete_at 4 3 "bob")
           "abc" 3);
    [reflexivity | reflexivity | reflexivity | reflexivity
    | reflexivity | discriminate | reflexivity | reflexivity
    | vm_compute; split; discriminate
    | vm_compute; split; [discriminate | reflexivity]
    | right; discriminate].
Defined.
